(** * The tool layer of the wetland knowledge base assistant

    A shallow embedding of [gemini_tools.py]: the tool catalogue
    [TOOL_SCHEMAS], the dispatcher [ToolExecutor.execute_tool] with its three
    handlers, and [format_tool_result_for_prompt], followed by the properties
    the specification states about them.

    Python values are an inductive type, dictionaries are association lists
    in insertion order, and code that can raise returns a [res], so that the
    dispatcher's [try ... except Exception] is an ordinary function. *)

From Stdlib Require Import ZArith String Ascii List Lia.
From Stdlib Require Import Floats.SpecFloat.
From stdpp Require Import base option list gmap strings pretty.

Set Warnings "-register-all".
Local Open Scope string_scope.
Local Open Scope Z_scope.
Local Open Scope list_scope.

(** ** Python values *)

(** The values a tool argument, a metadata field or a result field can hold:
    what a JSON document or a function-call payload decodes to.  A float is
    kept as its IEEE 754 value; the function-calling runtime hands every
    number over as a float.  Text is ASCII: [str.lower] and the whitespace
    and digit classes of [int] are modelled on that range. *)
Inductive pyval : Type :=
| PNone
| PBool (b : bool)
| PInt (n : Z)
| PFloat (f : spec_float)
| PStr (s : string)
| PList (l : list pyval)
| PDict (d : list (string * pyval)).

(** A dictionary with string keys, in insertion order. *)
Definition dict : Type := list (string * pyval).

(** The exceptions the embedded code can meet, all subclasses of
    [Exception].  [Failure] is any other such subclass, raised by a
    collaborator, with its class name and message.  What is not an
    [Exception] ([KeyboardInterrupt], [SystemExit]) is outside the model, as
    it is outside the [except] clause of the dispatcher. *)
Inductive exn : Type :=
| ValueError (msg : string)
| TypeError (msg : string)
| OverflowError (msg : string)
| AttributeError (msg : string)
| KeyError (key : string)
| Failure (cls msg : string).

(** [str(e)]. *)
Definition exn_str (e : exn) : string :=
  match e with
  | ValueError m | TypeError m | OverflowError m | AttributeError m => m
  | KeyError k => "'" +:+ k +:+ "'"
  | Failure _ m => m
  end.

(** The outcome of code that may raise. *)
Inductive res (A : Type) : Type :=
| Ok (a : A)
| Raise (e : exn).
Arguments Ok {A} a.
Arguments Raise {A} e.

Definition bind {A B : Type} (c : res A) (k : A → res B) : res B :=
  match c with
  | Ok a => k a
  | Raise e => Raise e
  end.

Notation "'let*' x := c 'in' k" := (bind c (fun x => k))
  (at level 10, x name, c at level 100, k at level 200).

(** [try: body except Exception as e: handler(e)]. *)
Definition try_except {A : Type} (body : res A) (handler : exn → res A) : res A :=
  match body with
  | Ok a => Ok a
  | Raise e => handler e
  end.

(** The parts of the interpreter and of the [json] module that the code
    calls and this development does not define: [repr] (which [str] uses for
    floats and containers) and [json.dumps(_, indent=2)]. *)
Class Runtime : Type := {
  py_repr : pyval → string;
  json_dumps : dict → string
}.

(** ** Built-in operations *)

Definition type_name (v : pyval) : string :=
  match v with
  | PNone => "NoneType"
  | PBool _ => "bool"
  | PInt _ => "int"
  | PFloat _ => "float"
  | PStr _ => "str"
  | PList _ => "list"
  | PDict _ => "dict"
  end.

(** Truth value, as [not v] and [if v] test it. *)
Definition truthy (v : pyval) : bool :=
  match v with
  | PNone => false
  | PBool b => b
  | PInt n => negb (n =? 0)
  | PFloat (S754_zero _) => false
  | PFloat _ => true
  | PStr s => negb (String.eqb s "")
  | PList l => match l with [] => false | _ => true end
  | PDict d => match d with [] => false | _ => true end
  end.

(** [d.get(key, default)]. *)
Fixpoint dict_get (d : dict) (key : string) (default : pyval) : pyval :=
  match d with
  | [] => default
  | (k, v) :: rest => if String.eqb k key then v else dict_get rest key default
  end.

(** [key in d]. *)
Definition dict_has (d : dict) (key : string) : bool :=
  existsb (fun kv => String.eqb (fst kv) key) d.

(** [str(v)].  The interpreter's configurable limit on the number of
    digits of an integer is not modelled. *)
Definition py_str {runtime : Runtime} (v : pyval) : string :=
  match v with
  | PStr s => s
  | PNone => "None"
  | PBool true => "True"
  | PBool false => "False"
  | PInt n => pretty n
  | PFloat _ | PList _ | PDict _ => py_repr v
  end.

(** The characters [int] strips from both ends of a string: tab, line
    feed, vertical tab, form feed, carriage return and space. *)
Definition is_space (c : ascii) : bool :=
  let n := nat_of_ascii c in
  ((9 <=? n) && (n <=? 13) || (n =? 32))%nat.

Definition is_digit (c : ascii) : bool :=
  let n := nat_of_ascii c in ((48 <=? n) && (n <=? 57))%nat.

Definition digit_value (c : ascii) : Z := Z.of_nat (nat_of_ascii c) - 48.

Fixpoint lstrip (l : list ascii) : list ascii :=
  match l with
  | c :: t => if is_space c then lstrip t else l
  | [] => []
  end.

Definition strip (l : list ascii) : list ascii := rev (lstrip (rev (lstrip l))).

(** Decimal digits, single underscores allowed between two digits.
    [after_digit] tells whether the previous character was a digit. *)
Fixpoint parse_digits (acc : Z) (after_digit : bool) (l : list ascii) : option Z :=
  match l with
  | [] => if after_digit then Some acc else None
  | c :: t =>
      if is_digit c then parse_digits (acc * 10 + digit_value c) true t
      else if Ascii.eqb c "_" then
        if after_digit then parse_digits acc false t else None
      else None
  end.

(** The integer a string denotes for [int(s)], if any.  The interpreter's
    configurable limit on the number of digits is not modelled. *)
Definition parse_int (s : string) : option Z :=
  match strip (list_ascii_of_string s) with
  | c :: t =>
      if Ascii.eqb c "-" then Z.opp <$> parse_digits 0 false t
      else if Ascii.eqb c "+" then parse_digits 0 false t
      else parse_digits 0 false (c :: t)
  | [] => None
  end.

(** [int(f)] for a float: truncation toward zero. *)
Definition float_to_int (f : spec_float) : res Z :=
  match f with
  | S754_zero _ => Ok 0
  | S754_infinity _ => Raise (OverflowError "cannot convert float infinity to integer")
  | S754_nan => Raise (ValueError "cannot convert float NaN to integer")
  | S754_finite s m e =>
      let a := if 0 <=? e then Z.pos m * 2 ^ e else Z.pos m / 2 ^ (- e) in
      Ok (if s then - a else a)
  end.

Definition int_type_error (v : pyval) : exn :=
  TypeError ("int() argument must be a string, a bytes-like object or a real number, not '"
             +:+ type_name v +:+ "'").

(** [int(v)]. *)
Definition py_int {runtime : Runtime} (v : pyval) : res Z :=
  match v with
  | PBool b => Ok (if b then 1 else 0)
  | PInt n => Ok n
  | PFloat f => float_to_int f
  | PStr s =>
      match parse_int s with
      | Some n => Ok n
      | None => Raise (ValueError ("invalid literal for int() with base 10: " +:+ py_repr v))
      end
  | PNone | PList _ | PDict _ => Raise (int_type_error v)
  end.

Definition lower_char (c : ascii) : ascii :=
  let n := nat_of_ascii c in
  if ((65 <=? n) && (n <=? 90))%nat then ascii_of_nat (n + 32) else c.

(** [s.lower()] on ASCII text: the letters A to Z are lowered, every
    other character is kept. *)
Fixpoint str_lower (s : string) : string :=
  match s with
  | EmptyString => EmptyString
  | String c t => String (lower_char c) (str_lower t)
  end.

(** [v.lower()]: only a string has the method. *)
Definition py_lower (v : pyval) : res string :=
  match v with
  | PStr s => Ok (str_lower s)
  | _ => Raise (AttributeError ("'" +:+ type_name v +:+ "' object has no attribute 'lower'"))
  end.

(** [needle in hay] on strings. *)
Fixpoint str_in (needle hay : string) : bool :=
  String.prefix needle hay ||
  match hay with
  | EmptyString => false
  | String _ t => str_in needle t
  end.

(** [l[:k]]: the first [k] elements, or for a negative [k] all but the
    last [-k]. *)
Definition py_slice_to {A : Type} (k : Z) (l : list A) : list A :=
  if 0 <=? k then take (Z.to_nat k) l
  else take (length l - Z.to_nat (- k)) l.

(** [len(v)]. *)
Definition py_len (v : pyval) : res Z :=
  match v with
  | PStr s => Ok (Z.of_nat (String.length s))
  | PList l => Ok (Z.of_nat (length l))
  | PDict d => Ok (Z.of_nat (length d))
  | _ => Raise (TypeError ("object of type '" +:+ type_name v +:+ "' has no len()"))
  end.

(** The elements a [for] loop over [v] visits. *)
Definition py_iter (v : pyval) : res (list pyval) :=
  match v with
  | PList l => Ok l
  | PDict d => Ok (map (fun kv => PStr (fst kv)) d)
  | PStr s => Ok (map (fun c => PStr (String c EmptyString)) (list_ascii_of_string s))
  | _ => Raise (TypeError ("'" +:+ type_name v +:+ "' object is not iterable"))
  end.

(** [v[key]] for a string [key]. *)
Definition py_getitem (v : pyval) (key : string) : res pyval :=
  match v with
  | PDict d => if dict_has d key then Ok (dict_get d key PNone) else Raise (KeyError key)
  | PStr _ => Raise (TypeError "string indices must be integers, not 'str'")
  | PList _ => Raise (TypeError "list indices must be integers or slices, not str")
  | _ => Raise (TypeError ("'" +:+ type_name v +:+ "' object is not subscriptable"))
  end.

(** Whether [v] can be a dictionary key. *)
Definition hashable (v : pyval) : bool :=
  match v with
  | PList _ | PDict _ => false
  | _ => true
  end.

(** A number as [m * 2^e], for the comparison of keys. *)
Definition as_number (v : pyval) : option (Z * Z) :=
  match v with
  | PBool b => Some (if b then 1 else 0, 0)
  | PInt n => Some (n, 0)
  | PFloat (S754_zero _) => Some (0, 0)
  | PFloat (S754_finite s m e) => Some (if s then Z.neg m else Z.pos m, e)
  | _ => None
  end.

(** [a == b] for two dictionary keys: numbers compare by value across
    [bool], [int] and [float].  A NaN equals nothing; values carry no
    object identity here, so a NaN key is never found again. *)
Definition key_eqb (a b : pyval) : bool :=
  match as_number a, as_number b with
  | Some (m1, e1), Some (m2, e2) =>
      let e := Z.min e1 e2 in m1 * 2 ^ (e1 - e) =? m2 * 2 ^ (e2 - e)
  | _, _ =>
      match a, b with
      | PNone, PNone => true
      | PStr s1, PStr s2 => String.eqb s1 s2
      | PFloat (S754_infinity s1), PFloat (S754_infinity s2) => Bool.eqb s1 s2
      | _, _ => false
      end
  end.

(** ** Documents and the retrieval pipeline *)

(** A chunk of an ingested file, as the retrieval pipeline holds it. *)
Record Document : Type := {
  page_content : string;
  metadata : dict
}.

(** The [rag_pipeline] object the executor is built with.  An attribute the
    object lacks is [None].  [hybrid_retriever] stands for its [invoke]
    method and [relevance_checker] for its [filter_documents] method, which
    pairs each document it keeps with a score. *)
Record RAGPipeline : Type := {
  class_name : string;
  hybrid_retriever : option (string → res (list Document));
  relevance_checker : option (string → list Document → res (list (Document * pyval)));
  documents : option (list Document)
}.

(** [self.rag_pipeline.relevance_checker.filter_documents]. *)
Definition get_relevance_checker (p : RAGPipeline)
  : res (string → list Document → res (list (Document * pyval))) :=
  match relevance_checker p with
  | Some f => Ok f
  | None => Raise (AttributeError ("'" +:+ class_name p +:+
                                   "' object has no attribute 'relevance_checker'"))
  end.

(** ** The tool catalogue *)

Record ParameterSpec : Type := {
  param_name : string;
  param_type : string;
  param_description : string
}.

Record ToolSchema : Type := {
  name : string;
  description : string;
  parameters_type : string;
  properties : list ParameterSpec;
  required : list string
}.

Definition TOOL_SCHEMAS : list ToolSchema := [
  {| name := "retrieve_documents";
     description := "Retrieve relevant documents from the wetland conservation knowledge base. Use this tool when you need to find information to answer the user's question. This searches across all available PDF documents.";
     parameters_type := "OBJECT";
     properties := [
       {| param_name := "query"; param_type := "STRING";
          param_description := "The search query to find relevant documents. Should be a clear, specific question or topic." |};
       {| param_name := "top_k"; param_type := "INTEGER";
          param_description := "Number of top documents to retrieve (default: 8, max: 15)" |} ];
     required := ["query"] |};
  {| name := "search_specific_document";
     description := "Search for information within a specific document only. Use this when the user explicitly mentions a document name (e.g., 'National Wetland Policy', 'Metro Colombo Strategy') or asks to use only a specific source.";
     parameters_type := "OBJECT";
     properties := [
       {| param_name := "document_name"; param_type := "STRING";
          param_description := "The name of the specific document to search within (e.g., 'National Wetland Policy.pdf')" |};
       {| param_name := "query"; param_type := "STRING";
          param_description := "The search query within that specific document" |};
       {| param_name := "top_k"; param_type := "INTEGER";
          param_description := "Number of top chunks to retrieve from this document (default: 5)" |} ];
     required := ["document_name"; "query"] |};
  {| name := "get_document_list";
     description := "Get a list of all available documents in the knowledge base with their metadata. Use this when the user asks what documents are available or wants to know the sources.";
     parameters_type := "OBJECT";
     properties := [];
     required := [] |}
].

Definition get_tool_schemas_for_gemini : list ToolSchema := TOOL_SCHEMAS.

(** ** The handlers *)

(** The block both retrieval handlers open with:
    [try: top_k = int(args.get("top_k", d)) except (ValueError, TypeError): top_k = d].
    Any other exception of [int] leaves the block. *)
Definition int_or_default {runtime : Runtime} (args : dict) (d : Z) : res Z :=
  try_except (py_int (dict_get args "top_k" (PInt d)))
    (fun e => match e with
              | ValueError _ | TypeError _ => Ok d
              | _ => Raise e
              end).

(** The dictionary a handler appends to [results] for one document. *)
Definition project (doc : Document) : pyval :=
  PDict [ ("content", PStr (page_content doc));
          ("source", dict_get (metadata doc) "source" (PStr "Unknown"));
          ("page", dict_get (metadata doc) "page" (PStr "?"));
          ("type", dict_get (metadata doc) "type" (PStr "text")) ].

Definition _retrieve_documents {runtime : Runtime} (p : RAGPipeline) (args : dict) : res dict :=
  let* top_k := int_or_default args 8 in
  let query := py_str (dict_get args "query" (dict_get args "question" (PStr ""))) in
  if String.eqb query "" then
    Ok [("error", PStr "Query is required"); ("success", PBool false)]
  else
    match hybrid_retriever p with
    | Some invoke =>
        let* retrieved_docs := invoke query in
        match retrieved_docs with
        | [] =>
            Ok [ ("success", PBool true);
                 ("message", PStr "No relevant documents found");
                 ("documents", PList []);
                 ("count", PInt 0) ]
        | _ =>
            let top_docs := py_slice_to top_k retrieved_docs in
            let* filter_documents := get_relevance_checker p in
            let* filtered := filter_documents query top_docs in
            let filtered_docs := map fst filtered in
            let results := map project filtered_docs in
            Ok [ ("success", PBool true);
                 ("message", PStr ("Retrieved " +:+ pretty (length results)
                                   +:+ " relevant documents"));
                 ("documents", PList results);
                 ("count", PInt (Z.of_nat (length results))) ]
        end
    | None =>
        Ok [("error", PStr "RAG pipeline not initialized"); ("success", PBool false)]
    end.

(** The test of the comprehension that scopes the retrieved documents:
    [document_name.lower() in doc.metadata.get("source", "").lower()]. *)
Definition in_document (document_name : string) (doc : Document) : res bool :=
  let* source := py_lower (dict_get (metadata doc) "source" (PStr "")) in
  Ok (str_in (str_lower document_name) source).

(** [[doc for doc in docs if test(doc)]] with a test that may raise. *)
Fixpoint filter_res {A : Type} (test : A → res bool) (docs : list A) : res (list A) :=
  match docs with
  | [] => Ok []
  | doc :: rest =>
      let* keep := test doc in
      let* kept := filter_res test rest in
      Ok (if keep then doc :: kept else kept)
  end.

Definition _search_specific_document {runtime : Runtime} (p : RAGPipeline) (args : dict) : res dict :=
  let document_name := py_str (dict_get args "document_name" (PStr "")) in
  let query := py_str (dict_get args "query" (PStr "")) in
  let* top_k := int_or_default args 5 in
  if String.eqb document_name "" || String.eqb query "" then
    Ok [ ("error", PStr "Both document_name and query are required");
         ("success", PBool false) ]
  else
    match hybrid_retriever p with
    | Some invoke =>
        let* retrieved_docs := invoke query in
        let* doc_specific := filter_res (in_document document_name) retrieved_docs in
        match doc_specific with
        | [] =>
            Ok [ ("success", PBool true);
                 ("message", PStr ("No content found in '" +:+ document_name
                                   +:+ "' for this query"));
                 ("documents", PList []);
                 ("count", PInt 0);
                 ("searched_document", PStr document_name) ]
        | _ =>
            let top_docs := py_slice_to (top_k * 2) doc_specific in
            let* filter_documents := get_relevance_checker p in
            let* filtered := filter_documents query top_docs in
            let filtered_docs := map fst (py_slice_to top_k filtered) in
            let results := map project filtered_docs in
            Ok [ ("success", PBool true);
                 ("message", PStr ("Retrieved " +:+ pretty (length results)
                                   +:+ " chunks from '" +:+ document_name +:+ "'"));
                 ("documents", PList results);
                 ("count", PInt (Z.of_nat (length results)));
                 ("searched_document", PStr document_name) ]
        end
    | None =>
        Ok [("error", PStr "RAG pipeline not initialized"); ("success", PBool false)]
    end.

(** The value [doc_info] holds for one source. *)
Record SourceInfo : Type := {
  info_name : pyval;
  info_pages : gset string;
  info_types : gset string;
  info_chunk_count : Z
}.

(** [doc_info]: a dictionary keyed by source, in insertion order. *)
Definition DocInfo : Type := list (pyval * SourceInfo).

(** [source in doc_info]. *)
Definition info_has (doc_info : DocInfo) (source : pyval) : bool :=
  existsb (fun kv => key_eqb (fst kv) source) doc_info.

(** [doc_info[source] = f(doc_info[source])] for a key that is present. *)
Fixpoint info_update (f : SourceInfo → SourceInfo) (source : pyval) (doc_info : DocInfo)
  : DocInfo :=
  match doc_info with
  | [] => []
  | (k, info) :: rest =>
      if key_eqb k source then (k, f info) :: rest
      else (k, info) :: info_update f source rest
  end.

(** One turn of the loop over [self.rag_pipeline.documents]. *)
Definition add_document {runtime : Runtime} (doc_info : DocInfo) (doc : Document) : res DocInfo :=
  let source := dict_get (metadata doc) "source" (PStr "Unknown") in
  if hashable source then
    let doc_info :=
      if info_has doc_info source then doc_info
      else (doc_info ++ [ (source, {| info_name := source; info_pages := ∅;
                                      info_types := ∅; info_chunk_count := 0 |}) ]) in
    let metadata := metadata doc in
    Ok (info_update
          (fun info =>
             {| info_name := info_name info;
                info_pages := info_pages info ∪ {[ py_str (dict_get metadata "page" (PStr "?")) ]};
                info_types := info_types info ∪ {[ py_str (dict_get metadata "type" (PStr "text")) ]};
                info_chunk_count := info_chunk_count info + 1 |})
          source doc_info)
  else Raise (TypeError ("unhashable type: '" +:+ type_name source +:+ "'")).

(** The whole loop, from a given [doc_info]. *)
Fixpoint collect {runtime : Runtime} (doc_info : DocInfo) (docs : list Document) : res DocInfo :=
  match docs with
  | [] => Ok doc_info
  | doc :: rest =>
      let* doc_info := add_document doc_info doc in
      collect doc_info rest
  end.

(** The catalogue entry of one source.  Python leaves the order in which
    [list(info["types"])] enumerates a set open; [elements] is one order. *)
Definition catalog_entry (info : SourceInfo) : pyval :=
  PDict [ ("name", info_name info);
          ("total_chunks", PInt (info_chunk_count info));
          ("page_count", PInt (Z.of_nat (size (info_pages info))));
          ("content_types", PList (PStr <$> elements (info_types info))) ].

Definition _get_document_list {runtime : Runtime} (p : RAGPipeline) (args : dict) : res dict :=
  match documents p with
  | None | Some [] =>
      Ok [ ("success", PBool false);
           ("error", PStr "No documents loaded in the knowledge base") ]
  | Some docs =>
      let* doc_info := collect [] docs in
      let documents := map (fun kv => catalog_entry (snd kv)) doc_info in
      Ok [ ("success", PBool true);
           ("message", PStr ("Found " +:+ pretty (length documents)
                             +:+ " documents in knowledge base"));
           ("documents", PList documents);
           ("total_documents", PInt (Z.of_nat (length documents))) ]
  end.

(** ** The dispatcher *)

(** The body of the [try] block of [execute_tool]. *)
Definition dispatch {runtime : Runtime} (p : RAGPipeline) (tool_name : string) (tool_args : dict)
  : res dict :=
  if String.eqb tool_name "retrieve_documents" then _retrieve_documents p tool_args
  else if String.eqb tool_name "search_specific_document" then
    _search_specific_document p tool_args
  else if String.eqb tool_name "get_document_list" then _get_document_list p tool_args
  else Ok [ ("error", PStr ("Unknown tool: " +:+ tool_name)); ("success", PBool false) ].

(** [ToolExecutor(p).execute_tool(tool_name, tool_args)].  The two log
    records it writes are not part of the result. *)
Definition execute_tool {runtime : Runtime} (p : RAGPipeline) (tool_name : string) (tool_args : dict)
  : res dict :=
  try_except (dispatch p tool_name tool_args)
    (fun e => Ok [ ("error", PStr (exn_str e)); ("success", PBool false) ]).

(** ** The formatter *)

(** The line feed. *)
Definition LF : string := String (ascii_of_nat 10) EmptyString.

(** The three lines the formatter writes for the [i]-th document. *)
Definition format_document {runtime : Runtime} (i : Z) (doc : pyval) : res string :=
  let* source := py_getitem doc "source" in
  let* page := py_getitem doc "page" in
  let* type := py_getitem doc "type" in
  let* content := py_getitem doc "content" in
  Ok ("--- Document " +:+ pretty i +:+ " ---" +:+ LF
      +:+ "Source: " +:+ py_str source +:+ ", Page: " +:+ py_str page
      +:+ ", Type: " +:+ py_str type +:+ LF
      +:+ "Content: " +:+ py_str content +:+ LF +:+ LF).

(** [for i, doc in enumerate(docs, i): formatted += ...]. *)
Fixpoint format_documents {runtime : Runtime} (formatted : string) (i : Z) (docs : list pyval)
  : res string :=
  match docs with
  | [] => Ok formatted
  | doc :: rest =>
      let* block := format_document i doc in
      format_documents (formatted +:+ block) (i + 1) rest
  end.

(** The line the formatter writes for one catalogue entry. *)
Definition format_entry {runtime : Runtime} (doc : pyval) : res string :=
  let* name := py_getitem doc "name" in
  let* total_chunks := py_getitem doc "total_chunks" in
  let* page_count := py_getitem doc "page_count" in
  Ok ("- " +:+ py_str name +:+ ": " +:+ py_str total_chunks +:+ " chunks, "
      +:+ py_str page_count +:+ " pages" +:+ LF).

Fixpoint format_entries {runtime : Runtime} (formatted : string) (docs : list pyval) : res string :=
  match docs with
  | [] => Ok formatted
  | doc :: rest =>
      let* line := format_entry doc in
      format_entries (formatted +:+ line) rest
  end.

Definition format_tool_result_for_prompt {runtime : Runtime} (tool_name : string) (result : dict)
  : res string :=
  if negb (truthy (dict_get result "success" (PBool false))) then
    Ok ("[Tool Error - " +:+ tool_name +:+ "]: "
        +:+ py_str (dict_get result "error" (PStr "Unknown error")))
  else if String.eqb tool_name "retrieve_documents"
          || String.eqb tool_name "search_specific_document" then
    let docs := dict_get result "documents" (PList []) in
    if negb (truthy docs) then
      Ok ("[" +:+ tool_name +:+ "]: No relevant documents found.")
    else
      let* n := py_len docs in
      let* items := py_iter docs in
      format_documents ("[" +:+ tool_name +:+ "]: Retrieved " +:+ pretty n
                        +:+ " documents:" +:+ LF +:+ LF) 1 items
  else if String.eqb tool_name "get_document_list" then
    let docs := dict_get result "documents" (PList []) in
    let* items := py_iter docs in
    format_entries ("[" +:+ tool_name +:+ "]: Available documents:" +:+ LF +:+ LF) items
  else Ok ("[" +:+ tool_name +:+ "]: " +:+ json_dumps result).

(** ** What the specification's words denote *)

(** The envelope the dispatcher and the handlers report a failure with. *)
Definition error_envelope (message : string) : dict :=
  [("error", PStr message); ("success", PBool false)].

(** The names the [if] chain of [execute_tool] routes to a handler. *)
Definition known_handlers : list string :=
  ["retrieve_documents"; "search_specific_document"; "get_document_list"].

(** The two shapes of a result envelope, with the [documents] field on the
    successful one only. *)
Definition well_formed (env : dict) : bool :=
  match dict_get env "success" PNone with
  | PBool true => negb (dict_has env "error") && dict_has env "documents"
  | PBool false => dict_has env "error" && negb (dict_has env "documents")
  | _ => false
  end.

(** The query [_retrieve_documents] works with. *)
Definition query_of {runtime : Runtime} (args : dict) : string :=
  py_str (dict_get args "query" (dict_get args "question" (PStr ""))).

(** Whether the [source] of a document contains [document_name], letter
    case aside. *)
Definition source_contains (document_name : string) (doc : Document) : bool :=
  match dict_get (metadata doc) "source" (PStr "") with
  | PStr s => str_in (str_lower document_name) (str_lower s)
  | _ => false
  end.

(** The first [k] elements, in the specification's reading: none for a
    negative [k]. *)
Definition first_k {A : Type} (k : Z) (l : list A) : list A := take (Z.to_nat k) l.

(** Whether the [source] of a document, when it has one, is text, as the
    data model has it. *)
Definition text_source (doc : Document) : bool :=
  match dict_get (metadata doc) "source" (PStr "") with
  | PStr _ => true
  | _ => false
  end.

(** [v[key]] of a dictionary value, [None] otherwise. *)
Definition field (v : pyval) (key : string) : pyval :=
  match v with
  | PDict d => dict_get d key PNone
  | _ => PNone
  end.

(** The documents [retrieve_documents] returns in the specification's
    words: the projections of what the relevance filter keeps of the first
    [top_k] retrieved documents. *)
Definition spec_retrieve_documents (top_k : Z) (query : string)
    (invoke : string → res (list Document))
    (filter_documents : string → list Document → res (list (Document * pyval)))
  : res (list pyval) :=
  let* retrieved := invoke query in
  let* filtered := filter_documents query (first_k top_k retrieved) in
  Ok (project <$> (fst <$> filtered)).

(** The documents [search_specific_document] returns in the
    specification's words: the projections of the first [top_k] documents
    the relevance filter keeps of the first [2 * top_k] scoped ones. *)
Definition spec_search_specific_document (top_k : Z) (document_name query : string)
    (invoke : string → res (list Document))
    (filter_documents : string → list Document → res (list (Document * pyval)))
  : res (list pyval) :=
  let* retrieved := invoke query in
  let c := first_k (2 * top_k) (List.filter (source_contains document_name) retrieved) in
  let* filtered := filter_documents query c in
  Ok (project <$> (fst <$> first_k top_k filtered)).

(** The source a document is filed under, and its name when it is text. *)
Definition source_of (doc : Document) : pyval :=
  dict_get (metadata doc) "source" (PStr "Unknown").

Definition source_name (doc : Document) : string :=
  match source_of doc with
  | PStr s => s
  | _ => ""
  end.

(** The stringified page and type of a document. *)
Definition page_text {runtime : Runtime} (doc : Document) : string :=
  py_str (dict_get (metadata doc) "page" (PStr "?")).

Definition type_text {runtime : Runtime} (doc : Document) : string :=
  py_str (dict_get (metadata doc) "type" (PStr "text")).

(** The distinct elements of a list, each at its first occurrence. *)
Fixpoint first_seen (l : list string) : list string :=
  match l with
  | [] => []
  | x :: t => x :: List.filter (fun y => negb (String.eqb y x)) (first_seen t)
  end.

(** The documents filed under the source [s]. *)
Definition chunks_of (s : string) (docs : list Document) : list Document :=
  List.filter (fun d => String.eqb (source_name d) s) docs.

(** What [doc_info] holds for the source [s] once the loop has seen [docs]. *)
Definition expected_info {runtime : Runtime} (docs : list Document) (s : string) : SourceInfo :=
  {| info_name := PStr s;
     info_pages := list_to_set (page_text <$> chunks_of s docs);
     info_types := list_to_set (type_text <$> chunks_of s docs);
     info_chunk_count := Z.of_nat (length (chunks_of s docs)) |}.

Definition expected_doc_info {runtime : Runtime} (docs : list Document) : DocInfo :=
  map (fun s => (PStr s, expected_info docs s)) (first_seen (source_name <$> docs)).

(** The sum of the [total_chunks] fields of catalogue entries. *)
Definition total_chunks_sum (entries : list pyval) : Z :=
  foldr (fun e acc => match field e "total_chunks" with
                      | PInt n => n + acc
                      | _ => acc
                      end) 0 entries.

(** ** Further notions for the properties of the handlers and the formatter *)

(** Whether the [top_k] argument, when given, is not an infinite float. *)
Definition finite_top_k (args : dict) : bool :=
  match dict_get args "top_k" PNone with
  | PFloat (S754_infinity _) => false
  | _ => true
  end.

(** Whether [v] is a dictionary that has every key of [keys]. *)
Definition has_keys (keys : list string) (v : pyval) : bool :=
  match v with
  | PDict d => forallb (dict_has d) keys
  | _ => false
  end.

(** The keys the formatter reads of a document, in the order it reads
    them, and those it reads of a catalogue entry. *)
Definition document_keys : list string := ["source"; "page"; "type"; "content"].
Definition entry_keys : list string := ["name"; "total_chunks"; "page_count"].

(** The text of the [i]-th document of a listing. *)
Definition document_block {runtime : Runtime} (i : Z) (doc : pyval) : string :=
  "--- Document " +:+ pretty i +:+ " ---" +:+ LF
  +:+ "Source: " +:+ py_str (field doc "source") +:+ ", Page: " +:+ py_str (field doc "page")
  +:+ ", Type: " +:+ py_str (field doc "type") +:+ LF
  +:+ "Content: " +:+ py_str (field doc "content") +:+ LF +:+ LF.

(** The blocks of a listing, numbered from [i] on. *)
Fixpoint document_blocks {runtime : Runtime} (i : Z) (docs : list pyval) : string :=
  match docs with
  | [] => ""
  | doc :: rest => document_block i doc +:+ document_blocks (i + 1) rest
  end.

(** The line of one catalogue entry, and the lines of a catalogue. *)
Definition entry_line {runtime : Runtime} (doc : pyval) : string :=
  "- " +:+ py_str (field doc "name") +:+ ": " +:+ py_str (field doc "total_chunks")
  +:+ " chunks, " +:+ py_str (field doc "page_count") +:+ " pages" +:+ LF.

Fixpoint entry_lines {runtime : Runtime} (docs : list pyval) : string :=
  match docs with
  | [] => ""
  | doc :: rest => entry_line doc +:+ entry_lines rest
  end.

(** The first key of [keys] that the dictionary [d] lacks. *)
Fixpoint first_missing (keys : list string) (d : dict) : option string :=
  match keys with
  | [] => None
  | k :: rest => if dict_has d k then first_missing rest d else Some k
  end.

(** The text of the stringified type values of a catalogue entry. *)
Definition content_types_of (entry : pyval) : list pyval :=
  match field entry "content_types" with
  | PList l => l
  | _ => []
  end.

(** ** Sample objects for the closed examples *)

(** A runtime for the closed examples; none of them prints a float or a
    container, nor reaches [json.dumps]. *)
Definition plain_runtime : Runtime :=
  {| py_repr := fun _ => "<object>"; json_dumps := fun _ => "{}" |}.

Definition chunk (source : string) (page : pyval) (text : string) : Document :=
  {| page_content := text; metadata := [("source", PStr source); ("page", page)] |}.

Definition keep_all (query : string) (docs : list Document) : res (list (Document * pyval)) :=
  Ok (map (fun d => (d, PFloat (S754_finite false 1 0))) docs).

Definition policy_chunks : list Document :=
  [ chunk "National Wetland Policy.pdf" (PInt 1) "Wetlands are protected.";
    chunk "national wetland policy.pdf" (PInt 2) "Filling is prohibited.";
    chunk "National Wetland Policy.pdf" (PInt 3) "Buffer zones apply.";
    chunk "NATIONAL WETLAND POLICY.PDF" (PInt 4) "Permits are required." ].

(** A pipeline whose retriever finds the four policy chunks for any query
    and whose relevance filter keeps them all. *)
Definition policy_pipeline : RAGPipeline :=
  {| class_name := "RAGPipeline";
     hybrid_retriever := Some (fun _ => Ok policy_chunks);
     relevance_checker := Some keep_all;
     documents := Some policy_chunks |}.

(** A pipeline whose retriever finds nothing. *)
Definition empty_pipeline : RAGPipeline :=
  {| class_name := "RAGPipeline";
     hybrid_retriever := Some (fun _ => Ok []);
     relevance_checker := Some keep_all;
     documents := Some [] |}.

(** A pipeline whose collaborators all raise. *)
Definition broken_pipeline : RAGPipeline :=
  {| class_name := "RAGPipeline";
     hybrid_retriever := Some (fun _ => Raise (Failure "ConnectionError" "index offline"));
     relevance_checker := Some (fun _ _ => Raise (Failure "RuntimeError" "scorer offline"));
     documents := None |}.

(** The collection of the specification's example: two chunks of [A.pdf]
    on pages 1 and 2, one chunk of [B.pdf] on page 1. *)
Definition example_collection : list Document :=
  [ chunk "A.pdf" (PStr "1") "a1"; chunk "B.pdf" (PStr "1") "b1"; chunk "A.pdf" (PStr "2") "a2" ].

(** A chunk whose [source] is a number, and one whose [source] is a list. *)
Definition numbered_chunk : Document :=
  {| page_content := "scan"; metadata := [("source", PInt 7)] |}.

Definition listed_chunk : Document :=
  {| page_content := "map"; metadata := [("source", PList [PStr "atlas.pdf"])] |}.

(** A relevance filter that keeps nothing. *)
Definition drop_all (query : string) (docs : list Document) : res (list (Document * pyval)) :=
  Ok [].

(** A pipeline with a document collection only. *)
Definition collection_pipeline (docs : list Document) : RAGPipeline :=
  {| class_name := "RAGPipeline"; hybrid_retriever := None;
     relevance_checker := None; documents := Some docs |}.

(** A pipeline whose retriever returns [docs] and whose relevance filter,
    if any, is [checker]. *)
Definition retrieval_pipeline (docs : list Document)
    (checker : option (string → list Document → res (list (Document * pyval))))
  : RAGPipeline :=
  {| class_name := "RAGPipeline"; hybrid_retriever := Some (fun _ => Ok docs);
     relevance_checker := checker; documents := None |}.

(** * Properties *)

Section Dispatcher.
Context {runtime : Runtime}.

(* Case analysis on every test the code makes, innermost first. *)
Ltac branches :=
  repeat match goal with
         | |- context [match ?x with _ => _ end] =>
             lazymatch x with
             | context [match _ with _ => _ end] => fail
             | _ => destruct x eqn:?
             end
         end.

Lemma retrieve_documents_shape p args :
  match _retrieve_documents p args with
  | Ok env => well_formed env = true
  | Raise _ => True
  end.
Proof. unfold _retrieve_documents, bind. branches; reflexivity || exact I. Qed.

Lemma search_specific_document_shape p args :
  match _search_specific_document p args with
  | Ok env => well_formed env = true
  | Raise _ => True
  end.
Proof. unfold _search_specific_document, bind. branches; reflexivity || exact I. Qed.

Lemma get_document_list_shape p args :
  match _get_document_list p args with
  | Ok env => well_formed env = true
  | Raise _ => True
  end.
Proof. unfold _get_document_list, bind. branches; reflexivity || exact I. Qed.

Lemma dispatch_shape p tool_name tool_args :
  match dispatch p tool_name tool_args with
  | Ok env => well_formed env = true
  | Raise _ => True
  end.
Proof.
  unfold dispatch.
  destruct (String.eqb tool_name "retrieve_documents");
    [apply retrieve_documents_shape|].
  destruct (String.eqb tool_name "search_specific_document");
    [apply search_specific_document_shape|].
  destruct (String.eqb tool_name "get_document_list");
    [apply get_document_list_shape|].
  reflexivity.
Qed.

Lemma execute_tool_well_formed p tool_name tool_args :
  ∃ env, execute_tool p tool_name tool_args = Ok env ∧ well_formed env = true.
Proof.
  unfold execute_tool, try_except.
  pose proof (dispatch_shape p tool_name tool_args) as Hs.
  destruct (dispatch p tool_name tool_args) as [env|e]; eauto.
Qed.

Lemma well_formed_cases env :
  well_formed env = true →
  (dict_get env "success" PNone = PBool true ∧ dict_has env "error" = false
   ∧ dict_has env "documents" = true)
  ∨ (dict_get env "success" PNone = PBool false ∧ dict_has env "error" = true
     ∧ dict_has env "documents" = false).
Proof.
  unfold well_formed.
  destruct (dict_get env "success" PNone) as [|[]| | | | |]; try discriminate;
    destruct (dict_has env "error"), (dict_has env "documents");
    simpl; try discriminate; auto.
Qed.

(** C1. Whatever the tool name, the arguments and the pipeline,
    [execute_tool] returns an envelope of exactly one of two shapes:
    [success] true without an [error] field, or [success] false with
    one.  An envelope with [success] false carries no [documents]
    field, and one with [success] true that a catalogued tool returned
    carries one. *)
Theorem execute_tool_envelope_shape p tool_name tool_args :
  ∃ env, execute_tool p tool_name tool_args = Ok env
    ∧ ((dict_get env "success" PNone = PBool true ∧ dict_has env "error" = false)
       ∨ (dict_get env "success" PNone = PBool false ∧ dict_has env "error" = true))
    ∧ (dict_get env "success" PNone = PBool false → dict_has env "documents" = false)
    ∧ (tool_name ∈ name <$> TOOL_SCHEMAS →
       dict_get env "success" PNone = PBool true → dict_has env "documents" = true).
Proof.
  destruct (execute_tool_well_formed p tool_name tool_args) as (env & Hrun & Hwf).
  exists env. split; [exact Hrun|].
  destruct (well_formed_cases env Hwf) as [(Hs & He & Hd)|(Hs & He & Hd)];
    rewrite Hs; repeat split; auto; discriminate.
Qed.

(** What the two retrieval handlers do once their arguments are
    accepted and the pipeline exposes the retriever. *)
Lemma retrieve_documents_run p args invoke top_k :
  int_or_default args 8 = Ok top_k → query_of args ≠ "" →
  hybrid_retriever p = Some invoke →
  _retrieve_documents p args =
    let* retrieved_docs := invoke (query_of args) in
    match retrieved_docs with
    | [] => Ok [ ("success", PBool true);
                 ("message", PStr "No relevant documents found");
                 ("documents", PList []);
                 ("count", PInt 0) ]
    | _ =>
        let* filter_documents := get_relevance_checker p in
        let* filtered := filter_documents (query_of args) (py_slice_to top_k retrieved_docs) in
        let results := map project (map fst filtered) in
        Ok [ ("success", PBool true);
             ("message", PStr ("Retrieved " +:+ pretty (length results)
                               +:+ " relevant documents"));
             ("documents", PList results);
             ("count", PInt (Z.of_nat (length results))) ]
    end.
Proof.
  intros Hk Hq Hinv. unfold _retrieve_documents. rewrite Hk. simpl.
  fold (query_of args). apply String.eqb_neq in Hq. rewrite Hq, Hinv. reflexivity.
Qed.

Lemma search_specific_document_run p args invoke top_k :
  let document_name := py_str (dict_get args "document_name" (PStr "")) in
  let query := py_str (dict_get args "query" (PStr "")) in
  int_or_default args 5 = Ok top_k → document_name ≠ "" → query ≠ "" →
  hybrid_retriever p = Some invoke →
  _search_specific_document p args =
    let* retrieved_docs := invoke query in
    let* doc_specific := filter_res (in_document document_name) retrieved_docs in
    match doc_specific with
    | [] => Ok [ ("success", PBool true);
                 ("message", PStr ("No content found in '" +:+ document_name
                                   +:+ "' for this query"));
                 ("documents", PList []);
                 ("count", PInt 0);
                 ("searched_document", PStr document_name) ]
    | _ =>
        let* filter_documents := get_relevance_checker p in
        let* filtered := filter_documents query (py_slice_to (top_k * 2) doc_specific) in
        let results := map project (map fst (py_slice_to top_k filtered)) in
        Ok [ ("success", PBool true);
             ("message", PStr ("Retrieved " +:+ pretty (length results)
                               +:+ " chunks from '" +:+ document_name +:+ "'"));
             ("documents", PList results);
             ("count", PInt (Z.of_nat (length results)));
             ("searched_document", PStr document_name) ]
    end.
Proof.
  intros document_name query Hk Hd Hq Hinv. unfold _search_specific_document.
  rewrite Hk. simpl. fold document_name query.
  apply String.eqb_neq in Hd, Hq. rewrite Hd, Hq, Hinv. reflexivity.
Qed.

(** C2. An exception that leaves the handler chosen for the call is
    turned by [execute_tool] into the envelope
    [{error: str(e), success: False}], and [execute_tool] itself always
    returns an envelope: it never raises.  The exceptions of the two
    collaborators are among those: when the retriever raises [e] on the
    query of [retrieve_documents], or the relevance filter raises [e] on
    its candidates, the envelope reports [str(e)]. *)
Theorem execute_tool_catches p tool_name tool_args :
  (∃ env, execute_tool p tool_name tool_args = Ok env)
  ∧ (∀ e, dispatch p tool_name tool_args = Raise e →
          execute_tool p tool_name tool_args = Ok (error_envelope (exn_str e)))
  ∧ (∀ invoke top_k e,
       int_or_default tool_args 8 = Ok top_k → query_of tool_args ≠ "" →
       hybrid_retriever p = Some invoke → invoke (query_of tool_args) = Raise e →
       execute_tool p "retrieve_documents" tool_args = Ok (error_envelope (exn_str e)))
  ∧ (∀ invoke filter_documents top_k doc docs e,
       int_or_default tool_args 8 = Ok top_k → query_of tool_args ≠ "" →
       hybrid_retriever p = Some invoke → invoke (query_of tool_args) = Ok (doc :: docs) →
       relevance_checker p = Some filter_documents →
       filter_documents (query_of tool_args) (py_slice_to top_k (doc :: docs)) = Raise e →
       execute_tool p "retrieve_documents" tool_args = Ok (error_envelope (exn_str e))).
Proof.
  split; [|split; [|split]].
  - destruct (execute_tool_well_formed p tool_name tool_args) as (env & Hrun & _); eauto.
  - intros e He. unfold execute_tool. rewrite He. reflexivity.
  - intros invoke top_k e Hk Hq Hinv Hraise. unfold execute_tool, dispatch. simpl.
    rewrite (retrieve_documents_run p tool_args invoke top_k Hk Hq Hinv), Hraise.
    reflexivity.
  - intros invoke filter_documents top_k doc docs e Hk Hq Hinv Hdocs Hflt Hraise.
    unfold execute_tool, dispatch. simpl.
    rewrite (retrieve_documents_run p tool_args invoke top_k Hk Hq Hinv), Hdocs.
    unfold get_relevance_checker. rewrite Hflt. simpl. rewrite Hraise. reflexivity.
Qed.

Lemma dispatch_unknown p tool_name tool_args :
  tool_name ∉ known_handlers →
  dispatch p tool_name tool_args = Ok (error_envelope ("Unknown tool: " +:+ tool_name)).
Proof.
  intros Hn. unfold dispatch.
  destruct (String.eqb_spec tool_name "retrieve_documents") as [->|_];
    [exfalso; apply Hn; unfold known_handlers; set_solver|].
  destruct (String.eqb_spec tool_name "search_specific_document") as [->|_];
    [exfalso; apply Hn; unfold known_handlers; set_solver|].
  destruct (String.eqb_spec tool_name "get_document_list") as [->|_];
    [exfalso; apply Hn; unfold known_handlers; set_solver|].
  reflexivity.
Qed.

(** C8. A tool name outside [retrieve_documents],
    [search_specific_document], [get_document_list] gets the envelope
    [{error: "Unknown tool: <name>", success: False}].  The names of the
    catalogue are these three and no other, and a call under a
    catalogued name is the guarded run of its handler: the branch that
    reports an unknown tool is not taken. *)
Theorem unknown_tool_iff_not_catalogued p tool_name tool_args :
  (tool_name ∉ known_handlers →
   execute_tool p tool_name tool_args
   = Ok (error_envelope ("Unknown tool: " +:+ tool_name)))
  ∧ name <$> TOOL_SCHEMAS = known_handlers
  ∧ (tool_name ∈ name <$> TOOL_SCHEMAS →
     ∃ handler, handler ∈ [_retrieve_documents; _search_specific_document; _get_document_list]
       ∧ dispatch p tool_name tool_args = handler p tool_args
       ∧ execute_tool p tool_name tool_args
         = try_except (handler p tool_args)
             (fun e => Ok (error_envelope (exn_str e)))).
Proof.
  split; [|split].
  - intros Hn. unfold execute_tool. rewrite dispatch_unknown by exact Hn. reflexivity.
  - reflexivity.
  - intros Hin. change (name <$> TOOL_SCHEMAS) with known_handlers in Hin.
    unfold known_handlers in Hin.
    apply elem_of_cons in Hin as [->|Hin]; [|apply elem_of_cons in Hin as [->|Hin]];
      [| |apply elem_of_cons in Hin as [->|Hin]; [|by apply elem_of_nil in Hin]].
    + exists _retrieve_documents. split; [set_solver|]. split; reflexivity.
    + exists _search_specific_document. split; [set_solver|]. split; reflexivity.
    + exists _get_document_list. split; [set_solver|]. split; reflexivity.
Qed.
End Dispatcher.

Section Retrieval.
Context {runtime : Runtime}.

Lemma dict_get_default d key a b :
  dict_has d key = true → dict_get d key a = dict_get d key b.
Proof.
  unfold dict_has. induction d as [|[k v] d IH]; simpl; [discriminate|].
  destruct (String.eqb k key); simpl; auto.
Qed.

Lemma dict_get_absent d key a :
  dict_has d key = false → dict_get d key a = a.
Proof.
  unfold dict_has. induction d as [|[k v] d IH]; simpl; [reflexivity|].
  destruct (String.eqb k key); simpl; [discriminate|auto].
Qed.

Lemma str_lower_empty s : str_lower s = "" → s = "".
Proof. destruct s; [reflexivity|discriminate]. Qed.

Lemma str_in_empty needle : str_in needle "" = true → needle = "".
Proof. destruct needle; [reflexivity|discriminate]. Qed.

(** A slice keeps a prefix of the list. *)
Lemma py_slice_to_sublist {A} k (l : list A) : sublist (py_slice_to k l) l.
Proof. unfold py_slice_to. destruct (0 <=? k); apply sublist_take. Qed.

Lemma py_slice_to_nonneg {A} k (l : list A) : 0 ≤ k → py_slice_to k l = first_k k l.
Proof. intros Hk. unfold py_slice_to, first_k. apply Z.leb_le in Hk. rewrite Hk. reflexivity. Qed.

Lemma py_slice_to_neg {A} k (l : list A) :
  k < 0 → py_slice_to k l = take (length l - Z.to_nat (- k)) l.
Proof. intros Hk. unfold py_slice_to. apply Z.leb_gt in Hk. rewrite Hk. reflexivity. Qed.

(** On documents with a text source the scoping comprehension is the
    plain filter by [source_contains]. *)
Lemma filter_res_text document_name docs :
  Forall (fun d => text_source d = true) docs →
  filter_res (in_document document_name) docs
  = Ok (List.filter (source_contains document_name) docs).
Proof.
  induction 1 as [|d docs Hd _ IH]; [reflexivity|].
  simpl. rewrite IH. unfold in_document, source_contains, text_source in *.
  destruct (dict_get (metadata d) "source" (PStr "")); try discriminate.
  reflexivity.
Qed.

(** Whenever the scoping comprehension returns, it returns the plain
    filter by [source_contains]. *)
Lemma filter_res_ok document_name docs scoped :
  filter_res (in_document document_name) docs = Ok scoped →
  scoped = List.filter (source_contains document_name) docs.
Proof.
  revert scoped. induction docs as [|d docs IH]; simpl; intros scoped Hrun.
  - by injection Hrun as <-.
  - unfold in_document at 1 in Hrun. unfold source_contains at 1.
    destruct (dict_get (metadata d) "source" (PStr "")); try discriminate.
    simpl in Hrun.
    destruct (filter_res (in_document document_name) docs) as [kept|e];
      [|discriminate].
    simpl in Hrun. injection Hrun as <-. by rewrite (IH kept eq_refl).
Qed.

(** A scoped document has a source field, which contains the name. *)
Lemma source_contains_project document_name d :
  document_name ≠ "" → source_contains document_name d = true →
  ∃ s, field (project d) "source" = PStr s
       ∧ str_in (str_lower document_name) (str_lower s) = true.
Proof.
  intros Hn Hc. unfold source_contains in Hc. simpl.
  destruct (dict_has (metadata d) "source") eqn:Hhas.
  - rewrite (dict_get_default _ _ (PStr "Unknown") (PStr "")) by exact Hhas.
    destruct (dict_get (metadata d) "source" (PStr "")); try discriminate. eauto.
  - rewrite dict_get_absent in Hc by exact Hhas. simpl in Hc.
    apply str_in_empty, str_lower_empty in Hc. contradiction.
Qed.

(** C5. An empty result is a success.  With a query that is not empty,
    a [top_k] the coercion accepts and a pipeline that exposes the
    retriever, [retrieve_documents] answers an empty retrieval with
    [{success: True, message: "No relevant documents found",
    documents: [], count: 0}]; and [search_specific_document], given
    also a name that is not empty, answers a scoping that leaves no
    document with an envelope whose [success] is true, whose [count] is
    0, whose [documents] are empty and whose [searched_document] is the
    name. *)
Theorem empty_result_is_success p args :
  (∀ invoke top_k,
     int_or_default args 8 = Ok top_k → query_of args ≠ "" →
     hybrid_retriever p = Some invoke → invoke (query_of args) = Ok [] →
     execute_tool p "retrieve_documents" args
     = Ok [ ("success", PBool true);
            ("message", PStr "No relevant documents found");
            ("documents", PList []);
            ("count", PInt 0) ])
  ∧ (∀ invoke top_k retrieved,
       let document_name := py_str (dict_get args "document_name" (PStr "")) in
       let query := py_str (dict_get args "query" (PStr "")) in
       int_or_default args 5 = Ok top_k → document_name ≠ "" → query ≠ "" →
       hybrid_retriever p = Some invoke → invoke query = Ok retrieved →
       filter_res (in_document document_name) retrieved = Ok [] →
       ∃ env, execute_tool p "search_specific_document" args = Ok env
         ∧ dict_get env "success" PNone = PBool true
         ∧ dict_has env "error" = false
         ∧ dict_get env "documents" PNone = PList []
         ∧ dict_get env "count" PNone = PInt 0
         ∧ dict_get env "searched_document" PNone = PStr document_name).
Proof.
  split.
  - intros invoke top_k Hk Hq Hinv Hempty. unfold execute_tool, dispatch. simpl.
    rewrite (retrieve_documents_run p args invoke top_k Hk Hq Hinv), Hempty.
    reflexivity.
  - intros invoke top_k retrieved document_name query Hk Hd Hq Hinv Hdocs Hempty.
    unfold execute_tool, dispatch. simpl.
    rewrite (search_specific_document_run p args invoke top_k Hk Hd Hq Hinv).
    fold document_name query. rewrite Hdocs. simpl. rewrite Hempty. simpl.
    eexists. split; [reflexivity|]. repeat split.
Qed.

(** C4, amended. With a query that is not empty, a [top_k] the coercion
    accepts and that is not negative, a pipeline that exposes the
    retriever, a retrieval that is not empty and a relevance filter that
    is present and returns, [retrieve_documents] returns
    [{success: True, message: "Retrieved N relevant documents",
    documents: D, count: N}], where [D] lists in order, scores dropped,
    the projections to [content], [source], [page], [type] (with
    ["Unknown"], ["?"], ["text"] for a missing key) of what
    [filter_documents] keeps of the first [top_k] retrieved documents,
    and [N] is the length of [D]: the cut to [top_k] comes before the
    filter. *)
Theorem retrieve_documents_result p args invoke filter_documents top_k retrieved filtered :
  int_or_default args 8 = Ok top_k → 0 ≤ top_k → query_of args ≠ "" →
  hybrid_retriever p = Some invoke → invoke (query_of args) = Ok retrieved →
  retrieved ≠ [] →
  relevance_checker p = Some filter_documents →
  filter_documents (query_of args) (first_k top_k retrieved) = Ok filtered →
  let D := map (fun doc =>
                  PDict [ ("content", PStr (page_content doc));
                          ("source", dict_get (metadata doc) "source" (PStr "Unknown"));
                          ("page", dict_get (metadata doc) "page" (PStr "?"));
                          ("type", dict_get (metadata doc) "type" (PStr "text")) ])
               (map fst filtered) in
  execute_tool p "retrieve_documents" args
  = Ok [ ("success", PBool true);
         ("message", PStr ("Retrieved " +:+ pretty (length D) +:+ " relevant documents"));
         ("documents", PList D);
         ("count", PInt (Z.of_nat (length D))) ].
Proof.
  intros Hk Hpos Hq Hinv Hdocs Hne Hflt Hfiltered D.
  unfold execute_tool, dispatch. simpl.
  rewrite (retrieve_documents_run p args invoke top_k Hk Hq Hinv), Hdocs.
  destruct retrieved as [|doc docs]; [contradiction|].
  unfold get_relevance_checker. rewrite Hflt. simpl.
  rewrite (py_slice_to_nonneg top_k (doc :: docs) Hpos), Hfiltered. reflexivity.
Qed.

(** C3, amended. With a name and a query that are not empty, a [top_k]
    the coercion accepts and that is not negative, a pipeline that
    exposes the retriever, retrieved documents whose [source] is text
    whenever they have one, a scoped set that is not empty and a
    relevance filter that is present and returns, the documents
    [search_specific_document] returns are the projections, in order, of
    the first [top_k] elements of [filter_documents(query, c)], where [c]
    is the first [2 * top_k] retrieved documents whose [source] contains
    the name, letter case aside: the filter runs first, the cut to
    [top_k] follows.  If [filter_documents] returns a subsequence of its
    input, the [source] of every returned document contains the name,
    letter case aside. *)
Theorem search_specific_document_result
    p args invoke filter_documents top_k retrieved filtered :
  let document_name := py_str (dict_get args "document_name" (PStr "")) in
  let query := py_str (dict_get args "query" (PStr "")) in
  let scoped := List.filter (source_contains document_name) retrieved in
  let c := first_k (2 * top_k) scoped in
  int_or_default args 5 = Ok top_k → 0 ≤ top_k → document_name ≠ "" → query ≠ "" →
  hybrid_retriever p = Some invoke → invoke query = Ok retrieved →
  Forall (fun d => text_source d = true) retrieved → scoped ≠ [] →
  relevance_checker p = Some filter_documents →
  filter_documents query c = Ok filtered →
  let returned := map fst (first_k top_k filtered) in
  execute_tool p "search_specific_document" args
  = Ok [ ("success", PBool true);
         ("message", PStr ("Retrieved " +:+ pretty (length (map project returned))
                           +:+ " chunks from '" +:+ document_name +:+ "'"));
         ("documents", PList (map project returned));
         ("count", PInt (Z.of_nat (length (map project returned))));
         ("searched_document", PStr document_name) ]
  ∧ (sublist (map fst filtered) c →
     Forall (fun r => ∃ s, field r "source" = PStr s
                           ∧ str_in (str_lower document_name) (str_lower s) = true)
            (map project returned)).
Proof.
  intros document_name query scoped c Hk Hpos Hd Hq Hinv Hdocs Htext Hne Hflt Hfiltered
    returned.
  split.
  - unfold execute_tool, dispatch. simpl.
    rewrite (search_specific_document_run p args invoke top_k Hk Hd Hq Hinv).
    fold document_name query. rewrite Hdocs. simpl.
    rewrite (filter_res_text document_name retrieved Htext). fold scoped.
    destruct scoped as [|doc docs] eqn:Hscoped; [contradiction|].
    unfold get_relevance_checker. rewrite Hflt. simpl.
    rewrite (py_slice_to_nonneg (top_k * 2) (doc :: docs)) by lia.
    rewrite (Z.mul_comm top_k 2). fold c. rewrite Hfiltered. cbn [bind].
    rewrite (py_slice_to_nonneg top_k filtered Hpos). reflexivity.
  - intros Hsub. apply List.Forall_forall. intros r Hr.
    apply in_map_iff in Hr as (d & <- & Hd').
    apply source_contains_project; [exact Hd|].
    subst returned. apply in_map_iff in Hd' as ([d' score] & <- & Hpair). simpl.
    assert ((d', score) ∈ filtered) as Hin.
    { eapply elem_of_sublist; [|apply sublist_take]. apply list_elem_of_In, Hpair. }
    assert (d' ∈ scoped) as Hin'.
    { eapply elem_of_sublist; [|apply sublist_take].
      eapply elem_of_sublist; [|exact Hsub].
      apply list_elem_of_In, in_map_iff. exists (d', score).
      split; [reflexivity|apply list_elem_of_In, Hin]. }
    apply list_elem_of_In, filter_In in Hin'. tauto.
Qed.
End Retrieval.

Section Catalog.
Context {runtime : Runtime}.

Lemma text_source_name d :
  text_source d = true → source_of d = PStr (source_name d).
Proof.
  unfold text_source, source_name, source_of. intros Ht.
  destruct (dict_has (metadata d) "source") eqn:Hhas.
  - rewrite (dict_get_default _ _ (PStr "Unknown") (PStr "")) by exact Hhas.
    destruct (dict_get (metadata d) "source" (PStr "")); try discriminate. reflexivity.
  - rewrite dict_get_absent by exact Hhas. reflexivity.
Qed.

Lemma elem_of_first_seen x l : x ∈ first_seen l ↔ x ∈ l.
Proof.
  induction l as [|y l IH]; simpl; [reflexivity|].
  rewrite !elem_of_cons, list_elem_of_In, filter_In, <- list_elem_of_In, IH.
  destruct (String.eqb_spec x y) as [->|Hne]; simpl; intuition congruence.
Qed.

Lemma NoDup_first_seen l : NoDup (first_seen l).
Proof.
  induction l as [|y l IH]; simpl; constructor.
  - rewrite list_elem_of_In, filter_In, String.eqb_refl. simpl. intuition discriminate.
  - apply NoDup_ListNoDup, List.NoDup_filter, NoDup_ListNoDup, IH.
Qed.

Lemma filter_all {A} (f : A → bool) l :
  (∀ x, x ∈ l → f x = true) → List.filter f l = l.
Proof.
  induction l as [|y l IH]; simpl; intros Hall; [reflexivity|].
  rewrite (Hall y) by apply list_elem_of_here.
  f_equal. apply IH. intros x Hx. apply Hall. by apply list_elem_of_further.
Qed.

Lemma filter_none {A} (f : A → bool) l :
  (∀ x, x ∈ l → f x = false) → List.filter f l = [].
Proof.
  induction l as [|y l IH]; simpl; intros Hall; [reflexivity|].
  rewrite (Hall y) by apply list_elem_of_here.
  apply IH. intros x Hx. apply Hall. by apply list_elem_of_further.
Qed.

(** The loop's view of [first_seen]: a new element goes to the end. *)
Lemma first_seen_snoc l x :
  first_seen (l ++ [x]) = if bool_decide (x ∈ l) then first_seen l else first_seen l ++ [x].
Proof.
  induction l as [|y l IH]; simpl; [reflexivity|].
  rewrite IH. destruct (decide (x = y)) as [->|Hne].
  - rewrite (bool_decide_eq_true_2 (y ∈ y :: l)) by apply list_elem_of_here.
    case_bool_decide; [reflexivity|].
    rewrite List.filter_app. simpl. rewrite String.eqb_refl. simpl.
    by rewrite app_nil_r.
  - case_bool_decide as Hin.
    + rewrite (bool_decide_eq_true_2 (x ∈ y :: l)) by (by apply list_elem_of_further).
      reflexivity.
    + rewrite (bool_decide_eq_false_2 (x ∈ y :: l)) by (rewrite elem_of_cons; tauto).
      rewrite List.filter_app. simpl.
      apply String.eqb_neq in Hne. rewrite Hne. reflexivity.
Qed.

(** The sources of an initial segment come first, in the same order. *)
Lemma first_seen_prefix l1 l2 : first_seen l1 `prefix_of` first_seen (l1 ++ l2).
Proof.
  induction l2 as [|x l2 IH] using rev_ind.
  - by rewrite app_nil_r.
  - rewrite app_assoc, first_seen_snoc. case_bool_decide; [exact IH|].
    etransitivity; [exact IH|]. by apply prefix_app_r.
Qed.

Lemma info_has_keys (g : string → SourceInfo) ks s :
  info_has (map (fun k => (PStr k, g k)) ks) (PStr s) = bool_decide (s ∈ ks).
Proof.
  unfold info_has. induction ks as [|k ks IH]; simpl; [reflexivity|].
  rewrite IH. change (key_eqb (PStr k) (PStr s)) with (String.eqb k s).
  destruct (String.eqb_spec k s) as [->|Hne]; simpl.
  - symmetry. apply bool_decide_eq_true_2, list_elem_of_here.
  - apply bool_decide_ext. rewrite elem_of_cons. intuition congruence.
Qed.

(** Updating the entry of a source that is present. *)
Lemma info_update_present f (g g' : string → SourceInfo) s ks :
  NoDup ks → s ∈ ks → f (g s) = g' s → (∀ k, k ≠ s → g k = g' k) →
  info_update f (PStr s) (map (fun k => (PStr k, g k)) ks)
  = map (fun k => (PStr k, g' k)) ks.
Proof.
  intros Hnd Hin Hs Hother. induction Hnd as [|k ks Hk Hnd IH]; simpl.
  - by apply elem_of_nil in Hin.
  - change (key_eqb (PStr k) (PStr s)) with (String.eqb k s).
    destruct (String.eqb_spec k s) as [->|Hne].
    + rewrite Hs. f_equal. apply map_ext_in. intros k Hin'.
      rewrite Hother; [reflexivity|]. intros ->. apply Hk, list_elem_of_In, Hin'.
    + rewrite Hother by exact Hne. f_equal. apply IH.
      apply elem_of_cons in Hin as [->|Hin]; [contradiction|exact Hin].
Qed.

(** Updating the entry of a source that was just appended. *)
Lemma info_update_fresh f (g g' : string → SourceInfo) s e0 ks :
  s ∉ ks → f e0 = g' s → (∀ k, k ≠ s → g k = g' k) →
  info_update f (PStr s) (map (fun k => (PStr k, g k)) ks ++ [(PStr s, e0)])
  = map (fun k => (PStr k, g' k)) (ks ++ [s]).
Proof.
  intros Hnin Hs Hother. induction ks as [|k ks IH]; simpl.
  - change (key_eqb (PStr s) (PStr s)) with (String.eqb s s).
    rewrite String.eqb_refl, Hs. reflexivity.
  - apply not_elem_of_cons in Hnin as [Hne Hnin].
    change (key_eqb (PStr k) (PStr s)) with (String.eqb k s).
    destruct (String.eqb_spec k s) as [->|_]; [contradiction|].
    rewrite Hother by congruence. f_equal. apply IH, Hnin.
Qed.

Lemma chunks_of_snoc k l d :
  chunks_of k (l ++ [d])
  = if String.eqb (source_name d) k then chunks_of k l ++ [d] else chunks_of k l.
Proof.
  unfold chunks_of. rewrite List.filter_app. simpl.
  destruct (String.eqb (source_name d) k); [reflexivity|apply app_nil_r].
Qed.

Lemma expected_info_other l d k :
  k ≠ source_name d → expected_info (l ++ [d]) k = expected_info l k.
Proof.
  intros Hne. unfold expected_info. rewrite chunks_of_snoc.
  destruct (String.eqb_spec (source_name d) k); [congruence|reflexivity].
Qed.

(** One more chunk of a source adds its page and type and counts. *)
Lemma expected_info_same l d :
  let info := expected_info l (source_name d) in
  {| info_name := info_name info;
     info_pages := info_pages info ∪ {[ page_text d ]};
     info_types := info_types info ∪ {[ type_text d ]};
     info_chunk_count := info_chunk_count info + 1 |}
  = expected_info (l ++ [d]) (source_name d).
Proof.
  unfold expected_info. simpl. rewrite chunks_of_snoc, String.eqb_refl.
  rewrite !fmap_app, !list_to_set_app_L, length_app. simpl.
  rewrite !(right_id_L ∅ (∪)). f_equal. lia.
Qed.

Lemma add_document_expected l d :
  text_source d = true →
  add_document (expected_doc_info l) d = Ok (expected_doc_info (l ++ [d])).
Proof.
  intros Ht. unfold add_document. fold (source_of d).
  rewrite (text_source_name d Ht). simpl. f_equal.
  unfold expected_doc_info. rewrite info_has_keys, fmap_app. simpl.
  rewrite first_seen_snoc.
  fold (page_text d) (type_text d).
  destruct (decide (source_name d ∈ source_name <$> l)) as [Hin|Hnin].
  - rewrite (bool_decide_eq_true_2 _ Hin).
    rewrite (bool_decide_eq_true_2 (source_name d ∈ first_seen (source_name <$> l)))
      by (by apply elem_of_first_seen).
    apply info_update_present.
    + apply NoDup_first_seen.
    + by apply elem_of_first_seen.
    + apply expected_info_same.
    + intros k Hk. symmetry. by apply expected_info_other.
  - rewrite (bool_decide_eq_false_2 _ Hnin).
    rewrite (bool_decide_eq_false_2 (source_name d ∈ first_seen (source_name <$> l)))
      by (by rewrite elem_of_first_seen).
    apply info_update_fresh.
    + by rewrite elem_of_first_seen.
    + rewrite <- expected_info_same. unfold expected_info, chunks_of.
      rewrite filter_none; [reflexivity|].
      intros x Hx. apply String.eqb_neq. intros Heq. apply Hnin.
      rewrite <- Heq. by apply list_elem_of_fmap_2.
    + intros k Hk. symmetry. by apply expected_info_other.
Qed.

(** The loop computes the expected [doc_info]. *)
Lemma collect_expected l1 l2 :
  Forall (fun d => text_source d = true) l2 →
  collect (expected_doc_info l1) l2 = Ok (expected_doc_info (l1 ++ l2)).
Proof.
  intros Ht. revert l1. induction Ht as [|d l2 Hd _ IH]; intros l1; simpl.
  - by rewrite app_nil_r.
  - rewrite (add_document_expected l1 d Hd). simpl.
    rewrite IH, <- app_assoc. reflexivity.
Qed.

Lemma size_list_to_set_distinct (l : list string) :
  size (list_to_set l : gset string) = length (remove_dups l).
Proof.
  rewrite <- (size_list_to_set (C := gset string) (remove_dups l))
    by apply NoDup_remove_dups.
  f_equal. apply set_eq. intros x.
  by rewrite !elem_of_list_to_set, elem_of_remove_dups.
Qed.

Lemma total_chunks_sum_entries docs ks :
  total_chunks_sum (map (fun s => catalog_entry (expected_info docs s)) ks)
  = foldr (fun s acc => Z.of_nat (length (chunks_of s docs)) + acc) 0 ks.
Proof.
  unfold total_chunks_sum. induction ks as [|k ks IH]; [reflexivity|].
  cbn [map foldr]. rewrite IH. reflexivity.
Qed.

(** Every chunk is counted under exactly one of the distinct sources. *)
Lemma chunk_counts_cons ks d docs :
  NoDup ks →
  foldr (fun s acc => Z.of_nat (length (chunks_of s (d :: docs))) + acc) 0 ks
  = (if bool_decide (source_name d ∈ ks) then 1 else 0)
    + foldr (fun s acc => Z.of_nat (length (chunks_of s docs)) + acc) 0 ks.
Proof.
  induction 1 as [|k ks Hk Hnd IH]; [reflexivity|].
  cbn [foldr]. rewrite IH.
  change (chunks_of k (d :: docs))
    with (if String.eqb (source_name d) k then d :: chunks_of k docs
          else chunks_of k docs).
  destruct (String.eqb_spec (source_name d) k) as [->|Hne].
  - rewrite (bool_decide_eq_false_2 _ Hk).
    rewrite bool_decide_eq_true_2 by apply list_elem_of_here.
    simpl length. lia.
  - rewrite (bool_decide_ext (source_name d ∈ k :: ks) (source_name d ∈ ks))
      by (rewrite elem_of_cons; intuition congruence).
    lia.
Qed.

Lemma chunk_counts_total ks docs :
  NoDup ks → (∀ d, d ∈ docs → source_name d ∈ ks) →
  foldr (fun s acc => Z.of_nat (length (chunks_of s docs)) + acc) 0 ks
  = Z.of_nat (length docs).
Proof.
  intros Hnd. induction docs as [|d docs IH]; intros Hall.
  - clear. induction ks as [|k ks IH]; [reflexivity|]. cbn [foldr]. rewrite IH. reflexivity.
  - rewrite chunk_counts_cons by exact Hnd.
    rewrite bool_decide_eq_true_2 by apply Hall, list_elem_of_here.
    rewrite IH by (intros d' Hd'; by apply Hall, list_elem_of_further).
    simpl length. lia.
Qed.

(** C6. Without a document collection, or with an empty one,
    [get_document_list] returns
    [{success: False, error: "No documents loaded in the knowledge base"}].
    On a collection of [N] documents, each filed under a text source
    (["Unknown"] when it has none), with [K] distinct sources, it returns
    a success whose [total_documents] is [K] and whose [documents] hold
    one entry per source, in the order the sources are first seen (the
    sources of any initial segment of the collection come first); the
    [total_chunks] of the entries add up to [N], and the [page_count] of
    an entry is the number of distinct stringified pages among the
    documents of its source. *)
Theorem get_document_list_catalog p args :
  (documents p = None ∨ documents p = Some [] →
   execute_tool p "get_document_list" args
   = Ok [ ("success", PBool false);
          ("error", PStr "No documents loaded in the knowledge base") ])
  ∧ (∀ docs,
       documents p = Some docs → docs ≠ [] →
       Forall (fun d => text_source d = true) docs →
       let sources := first_seen (source_name <$> docs) in
       ∃ entries,
         execute_tool p "get_document_list" args
         = Ok [ ("success", PBool true);
                ("message", PStr ("Found " +:+ pretty (length sources)
                                  +:+ " documents in knowledge base"));
                ("documents", PList entries);
                ("total_documents", PInt (Z.of_nat (length sources))) ]
         ∧ NoDup sources
         ∧ (∀ s, s ∈ sources ↔ ∃ d, d ∈ docs ∧ source_of d = PStr s)
         ∧ map (fun e => field e "name") entries = map PStr sources
         ∧ (∀ seen rest, docs = seen ++ rest →
                         first_seen (source_name <$> seen) `prefix_of` sources)
         ∧ total_chunks_sum entries = Z.of_nat (length docs)
         ∧ Forall2 (fun e s =>
                      field e "page_count"
                      = PInt (Z.of_nat (length (remove_dups
                                 (page_text <$> chunks_of s docs)))))
                   entries sources).
Proof.
  split.
  - intros [Hd|Hd]; unfold execute_tool, dispatch, _get_document_list; simpl;
      rewrite Hd; reflexivity.
  - intros docs Hd Hne Htext sources.
    exists (map (fun s => catalog_entry (expected_info docs s)) sources).
    split; [|split; [|split; [|split; [|split; [|split]]]]].
    + unfold execute_tool, dispatch, _get_document_list. simpl. rewrite Hd.
      destruct docs as [|d docs]; [contradiction|].
      change (@nil (pyval * SourceInfo)) with (expected_doc_info []).
      rewrite (collect_expected [] (d :: docs) Htext). simpl app.
      unfold expected_doc_info. fold sources. simpl.
      rewrite !length_map, map_map. reflexivity.
    + apply NoDup_first_seen.
    + intros s. unfold sources. rewrite elem_of_first_seen, list_elem_of_fmap.
      split.
      * intros (d & -> & Hin). exists d. split; [exact Hin|].
        apply text_source_name. rewrite List.Forall_forall in Htext.
        apply Htext, list_elem_of_In, Hin.
      * intros (d & Hin & Hs). exists d. split; [|exact Hin].
        unfold source_name. by rewrite Hs.
    + rewrite map_map. reflexivity.
    + intros seen rest ->. unfold sources. rewrite fmap_app. apply first_seen_prefix.
    + rewrite total_chunks_sum_entries. apply chunk_counts_total.
      * apply NoDup_first_seen.
      * intros d Hin. apply elem_of_first_seen. by apply list_elem_of_fmap_2.
    + apply Forall2_fmap_l, Forall_Forall2_diag, List.Forall_forall.
      intros s _. simpl. by rewrite size_list_to_set_distinct.
Qed.
End Catalog.

Section Formatter.
Context {runtime : Runtime}.

Lemma prefix_append a b : String.prefix a (a +:+ b) = true.
Proof.
  induction a as [|c a IH]; simpl; [by destruct b|].
  destruct (ascii_dec c c); [exact IH|contradiction].
Qed.

Lemma str_in_prefix a b : String.prefix a b = true → str_in a b = true.
Proof. intros Hp. destruct b; cbn [str_in]; rewrite Hp; reflexivity. Qed.

Lemma str_in_append needle before s :
  str_in needle s = true → str_in needle (before +:+ s) = true.
Proof.
  intros Hs. induction before as [|c before IH]; [exact Hs|].
  simpl. rewrite IH. apply orb_true_r.
Qed.

(** C9. For an envelope whose [success] is false (or missing), the
    formatter returns the line
    ["[Tool Error - <tool_name>]: " + str(error)], with ["Unknown error"]
    when the envelope has no [error] field; the line starts with
    ["[Tool Error - "].  For an envelope whose [success] is true and
    whose [documents] are empty (or missing) and either retrieval tool,
    it returns ["[<tool_name>]: No relevant documents found."], which
    contains ["No relevant documents found."]. *)
Theorem format_failure_and_empty tool_name result :
  (dict_get result "success" (PBool false) = PBool false →
   ∃ out, format_tool_result_for_prompt tool_name result = Ok out
     ∧ out = "[Tool Error - " +:+ tool_name +:+ "]: "
             +:+ py_str (dict_get result "error" (PStr "Unknown error"))
     ∧ (∀ message, dict_get result "error" PNone = PStr message →
                   out = "[Tool Error - " +:+ tool_name +:+ "]: " +:+ message)
     ∧ (dict_has result "error" = false →
        out = "[Tool Error - " +:+ tool_name +:+ "]: Unknown error")
     ∧ String.prefix "[Tool Error - " out = true)
  ∧ (tool_name = "retrieve_documents" ∨ tool_name = "search_specific_document" →
     dict_get result "success" (PBool false) = PBool true →
     dict_get result "documents" (PList []) = PList [] →
     ∃ out, format_tool_result_for_prompt tool_name result = Ok out
       ∧ out = "[" +:+ tool_name +:+ "]: No relevant documents found."
       ∧ str_in "No relevant documents found." out = true).
Proof.
  split.
  - intros Hs. unfold format_tool_result_for_prompt. rewrite Hs. simpl.
    eexists. split; [reflexivity|]. split; [reflexivity|].
    split; [|split].
    + intros message Hm.
      destruct (dict_has result "error") eqn:Hhas.
      * rewrite (dict_get_default _ _ (PStr "Unknown error") PNone) by exact Hhas.
        rewrite Hm. reflexivity.
      * rewrite dict_get_absent in Hm by exact Hhas. discriminate.
    + intros Hhas. rewrite dict_get_absent by exact Hhas. reflexivity.
    + apply (prefix_append "[Tool Error - ").
  - intros Hname Hs Hdocs. unfold format_tool_result_for_prompt.
    rewrite Hs, Hdocs. simpl.
    assert (String.eqb tool_name "retrieve_documents"
            || String.eqb tool_name "search_specific_document" = true) as ->.
    { destruct Hname as [-> | ->]; reflexivity. }
    eexists. split; [reflexivity|]. split; [reflexivity|].
    apply (str_in_append _ "["), str_in_append.
    apply (str_in_append _ "]: "), str_in_prefix. reflexivity.
Qed.
End Formatter.

Section Coercion.
Context {runtime : Runtime}.

(** [int] fails with a [ValueError] or a [TypeError] on every value but
    an infinite float, whose [OverflowError] the handlers do not catch. *)
Lemma py_int_failure v e :
  py_int v = Raise e →
  (∃ m, e = ValueError m) ∨ (∃ m, e = TypeError m)
  ∨ (∃ s, v = PFloat (S754_infinity s)).
Proof.
  destruct v as [|b|n|f|s|l|d]; simpl; try discriminate;
    try (intros [= <-]; unfold int_type_error; eauto).
  - destruct f; simpl; try discriminate; intros [= <-]; eauto.
  - destruct (parse_int s); [discriminate|]. intros [= <-]. eauto.
Qed.

(** Apart from an infinite float, a [top_k] that [int] rejects leaves
    the default in force. *)
Lemma int_or_default_lenient args d e :
  py_int (dict_get args "top_k" (PInt d)) = Raise e →
  (∀ s, dict_get args "top_k" (PInt d) ≠ PFloat (S754_infinity s)) →
  int_or_default args d = Ok d.
Proof.
  intros He Hfinite. unfold int_or_default. rewrite He. simpl.
  destruct (py_int_failure _ _ He) as [[m ->]|[[m ->]|[s Hs]]];
    [reflexivity|reflexivity|by apply Hfinite in Hs].
Qed.

Lemma int_or_default_infinite args d s :
  dict_get args "top_k" (PInt d) = PFloat (S754_infinity s) →
  int_or_default args d
  = Raise (OverflowError "cannot convert float infinity to integer").
Proof. intros Hk. unfold int_or_default. rewrite Hk. reflexivity. Qed.

(** Without a [query] key the [question] key supplies the query. *)
Lemma query_of_question args :
  dict_has args "query" = false →
  query_of args = py_str (dict_get args "question" (PStr "")).
Proof. intros Hq. unfold query_of. by rewrite dict_get_absent. Qed.

(** Once [top_k] is coerced, an empty query is refused whatever the
    pipeline is: no collaborator has a say. *)
Lemma retrieve_documents_query_required p args top_k :
  int_or_default args 8 = Ok top_k → query_of args = "" →
  execute_tool p "retrieve_documents" args = Ok (error_envelope "Query is required").
Proof.
  intros Hk Hq. unfold execute_tool, dispatch, _retrieve_documents. simpl.
  rewrite Hk. simpl. fold (query_of args). rewrite Hq. reflexivity.
Qed.

(** Once [top_k] is coerced, an empty name or an empty query is refused
    whatever the pipeline is. *)
Lemma search_specific_document_both_required p args top_k :
  int_or_default args 5 = Ok top_k →
  py_str (dict_get args "document_name" (PStr "")) = ""
  ∨ py_str (dict_get args "query" (PStr "")) = "" →
  execute_tool p "search_specific_document" args
  = Ok (error_envelope "Both document_name and query are required").
Proof.
  intros Hk Hempty. unfold execute_tool, dispatch, _search_specific_document. simpl.
  rewrite Hk. simpl. destruct Hempty as [-> | ->]; simpl;
    [|rewrite orb_true_r]; reflexivity.
Qed.

(** C7, at the input the code fails on. With an infinite float for
    [top_k], [retrieve_documents] neither falls back to 8 nor reports a
    missing query: the [OverflowError] of [int] leaves the handler and
    the dispatcher reports it, with a query and without one. *)
Theorem retrieve_documents_infinite_top_k p :
  execute_tool p "retrieve_documents"
    [("query", PStr "wetlands"); ("top_k", PFloat (S754_infinity false))]
  = Ok (error_envelope "cannot convert float infinity to integer")
  ∧ execute_tool p "retrieve_documents"
      [("query", PStr ""); ("top_k", PFloat (S754_infinity false))]
    = Ok (error_envelope "cannot convert float infinity to integer").
Proof. split; reflexivity. Qed.

(** C10, at the input the code fails on. With an infinite float for
    [top_k], [search_specific_document] given an empty name reports the
    [OverflowError] of [int], not the missing argument. *)
Theorem search_specific_document_infinite_top_k p :
  execute_tool p "search_specific_document"
    [ ("document_name", PStr ""); ("query", PStr "buffer zones");
      ("top_k", PFloat (S754_infinity false)) ]
  = Ok (error_envelope "cannot convert float infinity to integer").
Proof. reflexivity. Qed.
End Coercion.

Section Envelopes.
Context {runtime : Runtime}.

(** The envelopes [_retrieve_documents] can return. *)
Lemma retrieve_documents_paths p args env :
  _retrieve_documents p args = Ok env →
  ∃ top_k, int_or_default args 8 = Ok top_k
    ∧ (env = error_envelope "Query is required"
       ∨ env = error_envelope "RAG pipeline not initialized"
       ∨ env = [ ("success", PBool true);
                 ("message", PStr "No relevant documents found");
                 ("documents", PList []);
                 ("count", PInt 0) ]
       ∨ ∃ invoke filter_documents retrieved filtered,
           hybrid_retriever p = Some invoke
           ∧ invoke (query_of args) = Ok retrieved ∧ retrieved ≠ []
           ∧ relevance_checker p = Some filter_documents
           ∧ filter_documents (query_of args) (py_slice_to top_k retrieved) = Ok filtered
           ∧ env = [ ("success", PBool true);
                     ("message", PStr ("Retrieved "
                                       +:+ pretty (length (map project (map fst filtered)))
                                       +:+ " relevant documents"));
                     ("documents", PList (map project (map fst filtered)));
                     ("count", PInt (Z.of_nat (length (map project (map fst filtered))))) ]).
Proof.
  unfold _retrieve_documents. intros Hrun.
  destruct (int_or_default args 8) as [top_k|e] eqn:Hk; [|discriminate].
  exists top_k. split; [reflexivity|]. simpl in Hrun. fold (query_of args) in Hrun.
  destruct (String.eqb (query_of args) ""); [injection Hrun as <-; auto|].
  destruct (hybrid_retriever p) as [invoke|] eqn:Hinv; [|injection Hrun as <-; auto].
  destruct (invoke (query_of args)) as [retrieved|e] eqn:Hdocs; [|discriminate].
  simpl in Hrun. destruct retrieved as [|doc docs]; [injection Hrun as <-; auto|].
  unfold get_relevance_checker in Hrun.
  destruct (relevance_checker p) as [filter_documents|] eqn:Hflt; [|discriminate].
  simpl in Hrun.
  destruct (filter_documents (query_of args) (py_slice_to top_k (doc :: docs)))
    as [filtered|e] eqn:Hfiltered; [|discriminate].
  simpl in Hrun. injection Hrun as <-.
  right. right. right. exists invoke, filter_documents, (doc :: docs), filtered.
  repeat split; auto.
Qed.

(** The envelopes [_search_specific_document] can return. *)
Lemma search_specific_document_paths p args env :
  let document_name := py_str (dict_get args "document_name" (PStr "")) in
  let query := py_str (dict_get args "query" (PStr "")) in
  _search_specific_document p args = Ok env →
  ∃ top_k, int_or_default args 5 = Ok top_k
    ∧ (env = error_envelope "Both document_name and query are required"
       ∨ env = error_envelope "RAG pipeline not initialized"
       ∨ env = [ ("success", PBool true);
                 ("message", PStr ("No content found in '" +:+ document_name
                                   +:+ "' for this query"));
                 ("documents", PList []);
                 ("count", PInt 0);
                 ("searched_document", PStr document_name) ]
       ∨ ∃ filtered : list (Document * pyval),
           env = [ ("success", PBool true);
                   ("message",
                    PStr ("Retrieved "
                          +:+ pretty (length (map project
                                                (map fst (py_slice_to top_k filtered))))
                          +:+ " chunks from '" +:+ document_name +:+ "'"));
                   ("documents", PList (map project (map fst (py_slice_to top_k filtered))));
                   ("count", PInt (Z.of_nat (length
                      (map project (map fst (py_slice_to top_k filtered))))));
                   ("searched_document", PStr document_name) ]).
Proof.
  intros document_name query. unfold _search_specific_document.
  fold document_name query. intros Hrun.
  destruct (int_or_default args 5) as [top_k|e] eqn:Hk; [|discriminate].
  exists top_k. split; [reflexivity|]. simpl in Hrun.
  destruct (String.eqb document_name "" || String.eqb query "");
    [injection Hrun as <-; auto|].
  destruct (hybrid_retriever p) as [invoke|]; [|injection Hrun as <-; auto].
  destruct (invoke query) as [retrieved|e]; [|discriminate]. simpl in Hrun.
  destruct (filter_res (in_document document_name) retrieved) as [scoped|e];
    [|discriminate].
  simpl in Hrun. destruct scoped as [|doc docs]; [injection Hrun as <-; auto|].
  destruct (get_relevance_checker p) as [filter_documents|e]; [|discriminate].
  simpl in Hrun.
  destruct (filter_documents query (py_slice_to (top_k * 2) (doc :: docs)))
    as [filtered|e]; [|discriminate].
  simpl in Hrun. injection Hrun as <-. right. right. right. exists filtered. reflexivity.
Qed.

(** The envelopes [_get_document_list] can return. *)
Lemma get_document_list_paths p args env :
  _get_document_list p args = Ok env →
  env = [ ("success", PBool false);
          ("error", PStr "No documents loaded in the knowledge base") ]
  ∨ ∃ doc_info,
      env = [ ("success", PBool true);
              ("message",
               PStr ("Found "
                     +:+ pretty (length (map (fun kv => catalog_entry (snd kv)) doc_info))
                     +:+ " documents in knowledge base"));
              ("documents", PList (map (fun kv => catalog_entry (snd kv)) doc_info));
              ("total_documents",
               PInt (Z.of_nat (length (map (fun kv : pyval * SourceInfo =>
                                              catalog_entry (snd kv)) doc_info)))) ].
Proof.
  unfold _get_document_list. intros Hrun.
  destruct (documents p) as [[|doc docs]|]; try (injection Hrun as <-; auto).
  destruct (collect [] (doc :: docs)) as [doc_info|e]; [|discriminate].
  simpl in Hrun. injection Hrun as <-. right. exists doc_info. reflexivity.
Qed.

(** What [execute_tool] returns is what the handler returned, or the
    report of the exception that left it. *)
Lemma execute_tool_cases p tool_name tool_args env :
  execute_tool p tool_name tool_args = Ok env →
  dispatch p tool_name tool_args = Ok env
  ∨ ∃ e, dispatch p tool_name tool_args = Raise e ∧ env = error_envelope (exn_str e).
Proof.
  unfold execute_tool, try_except.
  destruct (dispatch p tool_name tool_args) as [env'|e]; intros [= <-]; eauto.
Qed.
End Envelopes.

Section Listing.
Context {runtime : Runtime}.

Lemma append_assoc (a b c : string) : (a +:+ b) +:+ c = a +:+ (b +:+ c).
Proof.
  induction a as [|x a IH]; [reflexivity|].
  change (String x ((a +:+ b) +:+ c) = String x (a +:+ (b +:+ c))). by rewrite IH.
Qed.

Lemma append_empty (a : string) : a +:+ "" = a.
Proof.
  induction a as [|x a IH]; [reflexivity|].
  change (String x (a +:+ "") = String x a). by rewrite IH.
Qed.

Lemma py_getitem_present d key :
  dict_has d key = true → py_getitem (PDict d) key = Ok (dict_get d key PNone).
Proof. intros Hhas. simpl. by rewrite Hhas. Qed.

Lemma py_getitem_absent d key :
  dict_has d key = false → py_getitem (PDict d) key = Raise (KeyError key).
Proof. intros Hhas. simpl. by rewrite Hhas. Qed.

Lemma format_document_ok i doc :
  has_keys document_keys doc = true → format_document i doc = Ok (document_block i doc).
Proof.
  destruct doc as [| | | | | |d]; try discriminate. simpl.
  destruct (dict_has d "source") eqn:Hs; [|discriminate].
  destruct (dict_has d "page") eqn:Hp; [|discriminate].
  destruct (dict_has d "type") eqn:Ht; [|discriminate].
  destruct (dict_has d "content") eqn:Hc; [|discriminate].
  intros _. unfold format_document.
  rewrite !py_getitem_present by assumption. reflexivity.
Qed.

(** The loop over the documents appends their blocks, numbered in order. *)
Lemma format_documents_ok formatted i docs :
  Forall (fun doc => has_keys document_keys doc = true) docs →
  format_documents formatted i docs = Ok (formatted +:+ document_blocks i docs).
Proof.
  intros Hdocs. revert formatted i.
  induction Hdocs as [|doc docs Hdoc _ IH]; intros formatted i; simpl.
  - by rewrite append_empty.
  - rewrite (format_document_ok i doc Hdoc). simpl. by rewrite IH, append_assoc.
Qed.

Lemma format_document_missing i d key :
  first_missing document_keys d = Some key →
  format_document i (PDict d) = Raise (KeyError key).
Proof.
  unfold format_document. simpl.
  destruct (dict_has d "source") eqn:Hs; [|by intros [= <-]].
  destruct (dict_has d "page") eqn:Hp; [|by intros [= <-]].
  destruct (dict_has d "type") eqn:Ht; [|by intros [= <-]].
  destruct (dict_has d "content") eqn:Hc; [discriminate|by intros [= <-]].
Qed.

Lemma format_documents_missing formatted i good d key rest :
  Forall (fun doc => has_keys document_keys doc = true) good →
  first_missing document_keys d = Some key →
  format_documents formatted i (good ++ PDict d :: rest) = Raise (KeyError key).
Proof.
  intros Hgood Hmiss. revert formatted i.
  induction Hgood as [|doc good Hdoc _ IH]; intros formatted i; simpl.
  - by rewrite (format_document_missing i d key Hmiss).
  - rewrite (format_document_ok i doc Hdoc). simpl. apply IH.
Qed.

Lemma format_entry_ok doc :
  has_keys entry_keys doc = true → format_entry doc = Ok (entry_line doc).
Proof.
  destruct doc as [| | | | | |d]; try discriminate. simpl.
  destruct (dict_has d "name") eqn:Hn; [|discriminate].
  destruct (dict_has d "total_chunks") eqn:Hc; [|discriminate].
  destruct (dict_has d "page_count") eqn:Hp; [|discriminate].
  intros _. unfold format_entry.
  rewrite !py_getitem_present by assumption. reflexivity.
Qed.

Lemma format_entries_ok formatted docs :
  Forall (fun doc => has_keys entry_keys doc = true) docs →
  format_entries formatted docs = Ok (formatted +:+ entry_lines docs).
Proof.
  intros Hdocs. revert formatted.
  induction Hdocs as [|doc docs Hdoc _ IH]; intros formatted; simpl.
  - by rewrite append_empty.
  - rewrite (format_entry_ok doc Hdoc). simpl. by rewrite IH, append_assoc.
Qed.

Lemma retrieval_tool_test tool_name :
  tool_name = "retrieve_documents" ∨ tool_name = "search_specific_document" →
  String.eqb tool_name "retrieve_documents"
  || String.eqb tool_name "search_specific_document" = true.
Proof. by intros [-> | ->]. Qed.

(** X1. For either retrieval tool and an envelope whose [success] is
    truthy and whose [documents] are a list that is not empty, of
    dictionaries that each have [source], [page], [type] and [content],
    the formatter does not fail: it returns the header with the number of
    documents, followed by one block per document, in the order of the
    envelope, numbered from 1. *)
Theorem format_retrieval_listing tool_name result docs :
  tool_name = "retrieve_documents" ∨ tool_name = "search_specific_document" →
  truthy (dict_get result "success" (PBool false)) = true →
  dict_get result "documents" (PList []) = PList docs → docs ≠ [] →
  Forall (fun doc => has_keys document_keys doc = true) docs →
  format_tool_result_for_prompt tool_name result
  = Ok ("[" +:+ tool_name +:+ "]: Retrieved " +:+ pretty (Z.of_nat (length docs))
        +:+ " documents:" +:+ LF +:+ LF +:+ document_blocks 1 docs).
Proof.
  intros Hname Hs Hdocs Hne Hkeys. unfold format_tool_result_for_prompt.
  rewrite Hs, (retrieval_tool_test tool_name Hname), Hdocs. simpl.
  destruct docs as [|doc docs]; [contradiction|]. cbn [truthy negb py_len py_iter bind].
  rewrite (format_documents_ok _ 1 (doc :: docs) Hkeys).
  by rewrite !append_assoc.
Qed.

(** X2. For [get_document_list] and an envelope whose [success] is
    truthy and whose [documents] are a list of dictionaries that each have
    [name], [total_chunks] and [page_count], the formatter returns the
    header followed by one line per entry, in order; an empty list gives
    the header alone. *)
Theorem format_catalogue_listing result docs :
  truthy (dict_get result "success" (PBool false)) = true →
  dict_get result "documents" (PList []) = PList docs →
  Forall (fun doc => has_keys entry_keys doc = true) docs →
  format_tool_result_for_prompt "get_document_list" result
  = Ok ("[get_document_list]: Available documents:" +:+ LF +:+ LF +:+ entry_lines docs).
Proof.
  intros Hs Hdocs Hkeys. unfold format_tool_result_for_prompt.
  rewrite Hs, Hdocs. simpl. by rewrite (format_entries_ok _ docs Hkeys).
Qed.

(** X3. The formatter reads the keys of a document with [doc[key]]: for
    either retrieval tool and an envelope whose [success] is truthy, if
    the first document that lacks one of [source], [page], [type],
    [content] lacks [key] first in that order, the formatter raises
    [KeyError(key)] and returns no text. *)
Theorem format_missing_key tool_name result good d key rest :
  tool_name = "retrieve_documents" ∨ tool_name = "search_specific_document" →
  truthy (dict_get result "success" (PBool false)) = true →
  dict_get result "documents" (PList []) = PList (good ++ PDict d :: rest) →
  Forall (fun doc => has_keys document_keys doc = true) good →
  first_missing document_keys d = Some key →
  format_tool_result_for_prompt tool_name result = Raise (KeyError key).
Proof.
  intros Hname Hs Hdocs Hgood Hmiss. unfold format_tool_result_for_prompt.
  rewrite Hs, (retrieval_tool_test tool_name Hname), Hdocs.
  assert (truthy (PList (good ++ PDict d :: rest)) = true) as ->
    by (by destruct good).
  cbn [negb py_len py_iter bind].
  apply format_documents_missing; assumption.
Qed.
End Listing.

Section Composition.
Context {runtime : Runtime}.

Lemma format_error_envelope tool_name message :
  format_tool_result_for_prompt tool_name (error_envelope message)
  = Ok ("[Tool Error - " +:+ tool_name +:+ "]: " +:+ message).
Proof. reflexivity. Qed.

(** The dictionaries the handlers build have the keys the formatter
    reads. *)
Lemma projections_have_keys docs :
  Forall (fun r => has_keys document_keys r = true) (map project docs).
Proof.
  apply List.Forall_forall. intros r Hr.
  apply in_map_iff in Hr as (d & <- & _). reflexivity.
Qed.

Lemma entries_have_keys (doc_info : DocInfo) :
  Forall (fun r => has_keys entry_keys r = true)
         (map (fun kv => catalog_entry (snd kv)) doc_info).
Proof.
  apply List.Forall_forall. intros r Hr.
  apply in_map_iff in Hr as (kv & <- & _). reflexivity.
Qed.

(** A successful envelope of [retrieve_documents]. *)
Lemma retrieve_documents_success p args env :
  execute_tool p "retrieve_documents" args = Ok env →
  dict_get env "success" PNone = PBool true →
  ∃ message docs,
    env = [ ("success", PBool true);
            ("message", PStr message);
            ("documents", PList (map project docs));
            ("count", PInt (Z.of_nat (length (map project docs)))) ].
Proof.
  intros Hrun Hs. apply execute_tool_cases in Hrun as [Hrun|(e & _ & ->)];
    [|discriminate].
  apply retrieve_documents_paths in Hrun
    as (top_k & _ & [-> | [-> | [-> | (invoke & flt & retrieved & filtered & Hrest)]]]);
    try discriminate.
  - by exists "No relevant documents found", [].
  - destruct Hrest as (_ & _ & _ & _ & _ & ->). eauto.
Qed.

(** A successful envelope of [search_specific_document]. *)
Lemma search_specific_document_success p args env :
  execute_tool p "search_specific_document" args = Ok env →
  dict_get env "success" PNone = PBool true →
  ∃ top_k message (docs : list Document),
    int_or_default args 5 = Ok top_k
    ∧ (0 ≤ top_k → Z.of_nat (length docs) ≤ top_k)
    ∧ env = [ ("success", PBool true);
              ("message", PStr message);
              ("documents", PList (map project docs));
              ("count", PInt (Z.of_nat (length (map project docs))));
              ("searched_document",
               PStr (py_str (dict_get args "document_name" (PStr "")))) ].
Proof.
  intros Hrun Hs. apply execute_tool_cases in Hrun as [Hrun|(e & _ & ->)];
    [|discriminate].
  apply search_specific_document_paths in Hrun
    as (top_k & Hk & [-> | [-> | [-> | (filtered & ->)]]]); try discriminate.
  - exists top_k, ("No content found in '"
                   +:+ py_str (dict_get args "document_name" (PStr ""))
                   +:+ "' for this query"), [].
    split; [exact Hk|]. split; [simpl; lia|reflexivity].
  - eexists top_k, _, (map fst (py_slice_to top_k filtered)).
    split; [exact Hk|]. split; [|reflexivity].
    intros Hpos. rewrite length_map, py_slice_to_nonneg by exact Hpos.
    unfold first_k. pose proof (firstn_le_length (Z.to_nat top_k) filtered). lia.
Qed.

(** A successful envelope of [get_document_list]. *)
Lemma get_document_list_success p args env :
  execute_tool p "get_document_list" args = Ok env →
  dict_get env "success" PNone = PBool true →
  ∃ message (doc_info : DocInfo),
    env = [ ("success", PBool true);
            ("message", PStr message);
            ("documents", PList (map (fun kv => catalog_entry (snd kv)) doc_info));
            ("total_documents",
             PInt (Z.of_nat (length (map (fun kv : pyval * SourceInfo =>
                                            catalog_entry (snd kv)) doc_info)))) ].
Proof.
  intros Hrun Hs. apply execute_tool_cases in Hrun as [Hrun|(e & _ & ->)];
    [|discriminate].
  apply (get_document_list_paths p args) in Hrun as [-> | (doc_info & ->)];
    [discriminate|].
  by eexists _, doc_info.
Qed.

(** Only the three handlers return a success. *)
Lemma success_is_known p tool_name args env :
  execute_tool p tool_name args = Ok env →
  dict_get env "success" PNone = PBool true →
  tool_name = "retrieve_documents" ∨ tool_name = "search_specific_document"
  ∨ tool_name = "get_document_list".
Proof.
  intros Hrun Hs.
  destruct (String.eqb_spec tool_name "retrieve_documents"); [auto|].
  destruct (String.eqb_spec tool_name "search_specific_document"); [auto|].
  destruct (String.eqb_spec tool_name "get_document_list"); [auto|].
  unfold execute_tool in Hrun. rewrite dispatch_unknown in Hrun.
  - injection Hrun as <-. discriminate.
  - unfold known_handlers. rewrite !not_elem_of_cons. repeat split; auto.
    apply not_elem_of_nil.
Qed.

(** X4. Whatever the tool name, the arguments and the pipeline, the
    formatter does not fail on the envelope [execute_tool] returns for the
    same tool name: the dispatcher and the formatter compose into a
    function from a call to a text. *)
Theorem format_of_execute_tool p tool_name tool_args :
  ∃ env out, execute_tool p tool_name tool_args = Ok env
             ∧ format_tool_result_for_prompt tool_name env = Ok out.
Proof.
  destruct (execute_tool_well_formed p tool_name tool_args) as (env & Hrun & Hwf).
  exists env.
  destruct (well_formed_cases env Hwf) as [(Hs & _ & _)|(Hs & He & _)].
  - destruct (success_is_known p tool_name tool_args env Hrun Hs) as [-> | [-> | ->]].
    + destruct (retrieve_documents_success p tool_args env Hrun Hs)
        as (message & docs & ->).
      destruct docs as [|doc docs]; [eexists; split; [exact Hrun|reflexivity]|].
      eexists. split; [exact Hrun|]. unfold format_tool_result_for_prompt.
      cbn [dict_get String.eqb Ascii.eqb Bool.eqb truthy negb orb map py_len py_iter bind].
      apply format_documents_ok, (projections_have_keys (doc :: docs)).
    + destruct (search_specific_document_success p tool_args env Hrun Hs)
        as (top_k & message & docs & _ & _ & ->).
      destruct docs as [|doc docs]; [eexists; split; [exact Hrun|reflexivity]|].
      eexists. split; [exact Hrun|]. unfold format_tool_result_for_prompt.
      cbn [dict_get String.eqb Ascii.eqb Bool.eqb truthy negb orb map py_len py_iter bind].
      apply format_documents_ok, (projections_have_keys (doc :: docs)).
    + destruct (get_document_list_success p tool_args env Hrun Hs)
        as (message & doc_info & ->).
      eexists. split; [exact Hrun|]. unfold format_tool_result_for_prompt.
      cbn [dict_get String.eqb Ascii.eqb Bool.eqb truthy negb orb py_iter bind].
      apply format_entries_ok, entries_have_keys.
  - eexists. split; [exact Hrun|]. unfold format_tool_result_for_prompt.
    rewrite (dict_get_default env "success" (PBool false) PNone), Hs; [reflexivity|].
    unfold dict_has. destruct (existsb _ env) eqn:Hhas; [reflexivity|].
    rewrite dict_get_absent in Hs by exact Hhas. discriminate.
Qed.
(** X5. In every successful envelope of [execute_tool] the counter
    agrees with the list: [documents] is a list, for the two retrieval
    tools [count] is its length, and for [get_document_list]
    [total_documents] is its length and there is no [count] field. *)
Theorem count_is_number_of_documents p tool_name args env :
  execute_tool p tool_name args = Ok env →
  dict_get env "success" PNone = PBool true →
  ∃ docs, dict_get env "documents" PNone = PList docs
    ∧ (tool_name = "retrieve_documents" ∨ tool_name = "search_specific_document" →
       dict_get env "count" PNone = PInt (Z.of_nat (length docs)))
    ∧ (tool_name = "get_document_list" →
       dict_get env "total_documents" PNone = PInt (Z.of_nat (length docs))
       ∧ dict_has env "count" = false).
Proof.
  intros Hrun Hs.
  destruct (success_is_known p tool_name args env Hrun Hs) as [-> | [-> | ->]].
  - destruct (retrieve_documents_success p args env Hrun Hs) as (message & docs & ->).
    exists (map project docs). split; [reflexivity|].
    split; [intros _; reflexivity|intros Hn; discriminate Hn].
  - destruct (search_specific_document_success p args env Hrun Hs)
      as (top_k & message & docs & _ & _ & ->).
    exists (map project docs). split; [reflexivity|].
    split; [intros _; reflexivity|intros Hn; discriminate Hn].
  - destruct (get_document_list_success p args env Hrun Hs) as (message & doc_info & ->).
    exists (map (fun kv => catalog_entry (snd kv)) doc_info). split; [reflexivity|].
    split; [intros [Hn|Hn]; discriminate Hn|intros _; split; reflexivity].
Qed.

(** X6. [search_specific_document] cuts after the filter, so with a
    [top_k] that is not negative it never returns more than [top_k]
    documents, whatever the relevance filter returns. *)
Theorem search_specific_document_count_bound p args env top_k :
  execute_tool p "search_specific_document" args = Ok env →
  dict_get env "success" PNone = PBool true →
  int_or_default args 5 = Ok top_k → 0 ≤ top_k →
  ∃ n, dict_get env "count" PNone = PInt n ∧ 0 ≤ n ≤ top_k.
Proof.
  intros Hrun Hs Hk Hpos.
  destruct (search_specific_document_success p args env Hrun Hs)
    as (top_k' & message & docs & Hk' & Hbound & ->).
  rewrite Hk in Hk'. injection Hk' as <-.
  exists (Z.of_nat (length (map project docs))). split; [reflexivity|].
  rewrite length_map. split; [lia|auto].
Qed.

(** X7. [retrieve_documents] cuts before the filter, so its count is
    bounded only through the filter: if the relevance filter never returns
    more pairs than it was given documents, then with a [top_k] that is
    not negative the count is at most [top_k]. *)
Theorem retrieve_documents_count_bound p args env top_k :
  execute_tool p "retrieve_documents" args = Ok env →
  dict_get env "success" PNone = PBool true →
  int_or_default args 8 = Ok top_k → 0 ≤ top_k →
  (∀ filter_documents query candidates kept,
     relevance_checker p = Some filter_documents →
     filter_documents query candidates = Ok kept →
     (length kept ≤ length candidates)%nat) →
  ∃ n, dict_get env "count" PNone = PInt n ∧ 0 ≤ n ≤ top_k.
Proof.
  intros Hrun Hs Hk Hpos Hflt.
  apply execute_tool_cases in Hrun as [Hrun|(e & _ & ->)]; [|discriminate].
  apply (retrieve_documents_paths p args) in Hrun
    as (top_k' & Hk' & [-> | [-> | [-> | (invoke & flt & retrieved & filtered & Hrest)]]]);
    try discriminate.
  - exists 0. split; [reflexivity|lia].
  - destruct Hrest as (_ & _ & _ & Hchecker & Hfiltered & ->).
    rewrite Hk in Hk'. injection Hk' as <-.
    eexists. split; [reflexivity|]. rewrite !length_map.
    pose proof (Hflt _ _ _ _ Hchecker Hfiltered) as Hle.
    rewrite py_slice_to_nonneg in Hle by exact Hpos. unfold first_k in Hle.
    pose proof (firstn_le_length (Z.to_nat top_k) retrieved). lia.
Qed.

(** X8. Every successful envelope of [search_specific_document], empty
    or not, carries [searched_document] with the name as coerced by
    [str]; no failed envelope carries the field. *)
Theorem searched_document_echo p args env :
  execute_tool p "search_specific_document" args = Ok env →
  (dict_get env "success" PNone = PBool true ∧
   dict_get env "searched_document" PNone
   = PStr (py_str (dict_get args "document_name" (PStr ""))))
  ∨ (dict_get env "success" PNone = PBool false ∧
     dict_has env "searched_document" = false).
Proof.
  intros Hrun.
  destruct (execute_tool_well_formed p "search_specific_document" args)
    as (env' & Hrun' & Hwf).
  rewrite Hrun in Hrun'. injection Hrun' as <-.
  destruct (well_formed_cases env Hwf) as [(Hs & _ & _)|(Hs & _ & _)].
  - left. split; [exact Hs|].
    by destruct (search_specific_document_success p args env Hrun Hs)
      as (top_k & message & docs & _ & _ & ->).
  - right. split; [exact Hs|].
    apply execute_tool_cases in Hrun as [Hrun|(e & _ & ->)]; [|reflexivity].
    apply (search_specific_document_paths p args) in Hrun
      as (top_k & _ & [-> | [-> | [-> | (filtered & ->)]]]);
      try reflexivity; discriminate.
Qed.

(** X9. The two ways a retrieval comes out empty (nothing retrieved or
    scoped, or everything dropped by the filter or the cut) carry
    different messages but are formatted alike: for a successful envelope
    of either retrieval tool with [count] 0 the formatter returns
    ["[<tool_name>]: No relevant documents found."]. *)
Theorem empty_results_format_alike p tool_name args env :
  tool_name = "retrieve_documents" ∨ tool_name = "search_specific_document" →
  execute_tool p tool_name args = Ok env →
  dict_get env "success" PNone = PBool true →
  dict_get env "count" PNone = PInt 0 →
  format_tool_result_for_prompt tool_name env
  = Ok ("[" +:+ tool_name +:+ "]: No relevant documents found.").
Proof.
  intros [-> | ->] Hrun Hs Hcount.
  - destruct (retrieve_documents_success p args env Hrun Hs) as (message & docs & ->).
    simpl in Hcount. destruct docs; [reflexivity|discriminate].
  - destruct (search_specific_document_success p args env Hrun Hs)
      as (top_k & message & docs & _ & _ & ->).
    simpl in Hcount. destruct docs; [reflexivity|discriminate].
Qed.

(** X10. The formatter trusts the tool name it is given: a successful
    envelope of [retrieve_documents] with at least one document,
    formatted under the name [get_document_list], raises
    [KeyError('name')]. *)
Theorem format_under_wrong_tool_name p args env n :
  execute_tool p "retrieve_documents" args = Ok env →
  dict_get env "success" PNone = PBool true →
  dict_get env "count" PNone = PInt n → 0 < n →
  format_tool_result_for_prompt "get_document_list" env = Raise (KeyError "name").
Proof.
  intros Hrun Hs Hcount Hpos.
  destruct (retrieve_documents_success p args env Hrun Hs) as (message & docs & ->).
  simpl in Hcount. injection Hcount as <-.
  destruct docs as [|doc docs]; [simpl in Hpos; lia|]. reflexivity.
Qed.
End Composition.

Section Degraded.
Context {runtime : Runtime}.

Lemma top_k_absent args d :
  dict_has args "top_k" = false → int_or_default args d = Ok d.
Proof. intros Hhas. unfold int_or_default. by rewrite dict_get_absent. Qed.

(** The coercion returns whenever [top_k] is not an infinite float. *)
Lemma finite_top_k_coerces args d :
  finite_top_k args = true → ∃ top_k, int_or_default args d = Ok top_k.
Proof.
  unfold finite_top_k. intros Hfin.
  destruct (dict_has args "top_k") eqn:Hhas; [|rewrite top_k_absent; eauto].
  destruct (py_int (dict_get args "top_k" (PInt d))) as [k|e] eqn:Hint.
  - exists k. unfold int_or_default. by rewrite Hint.
  - exists d. apply (int_or_default_lenient args d e Hint). intros s Hs.
    rewrite (dict_get_default args "top_k" PNone (PInt d)), Hs in Hfin by exact Hhas.
    discriminate.
Qed.

(** X11. [int_or_default] leaves its [try] block with an exception in
    exactly one case, an infinite float, and with [OverflowError] then.
    In every other case it returns an integer: the default when [top_k] is
    absent or [int] rejects it, the value of [int] otherwise. *)
Theorem int_or_default_outcomes args d :
  (finite_top_k args = false →
   int_or_default args d
   = Raise (OverflowError "cannot convert float infinity to integer"))
  ∧ (finite_top_k args = true →
     ∃ top_k, int_or_default args d = Ok top_k
       ∧ (dict_has args "top_k" = false → top_k = d)
       ∧ (py_int (dict_get args "top_k" (PInt d)) = Ok top_k
          ∨ (top_k = d ∧ ∃ e, py_int (dict_get args "top_k" (PInt d)) = Raise e))).
Proof.
  split.
  - unfold finite_top_k. intros Hfin.
    destruct (dict_has args "top_k") eqn:Hhas;
      [|by rewrite dict_get_absent in Hfin by exact Hhas].
    rewrite (dict_get_default args "top_k" PNone (PInt d)) in Hfin by exact Hhas.
    destruct (dict_get args "top_k" (PInt d)) as [| | |[| | |]| | |] eqn:Hv;
      try discriminate.
    by apply (int_or_default_infinite args d s).
  - intros Hfin. destruct (finite_top_k_coerces args d Hfin) as (top_k & Hk).
    exists top_k. split; [exact Hk|]. split.
    + intros Hhas. rewrite (top_k_absent args d Hhas) in Hk. by injection Hk.
    + unfold int_or_default, try_except in Hk.
      destruct (py_int (dict_get args "top_k" (PInt d))) as [k|e]; [left; exact Hk|].
      right. destruct e; try discriminate; injection Hk as <-; eauto.
Qed.

(** X12. A pipeline without the [hybrid_retriever] attribute is reported,
    not raised: once the arguments pass validation, both retrieval tools
    return [{error: "RAG pipeline not initialized", success: False}]. *)
Theorem retriever_missing_reported p args :
  hybrid_retriever p = None → finite_top_k args = true →
  (query_of args ≠ "" →
   execute_tool p "retrieve_documents" args
   = Ok (error_envelope "RAG pipeline not initialized"))
  ∧ (py_str (dict_get args "document_name" (PStr "")) ≠ "" →
     py_str (dict_get args "query" (PStr "")) ≠ "" →
     execute_tool p "search_specific_document" args
     = Ok (error_envelope "RAG pipeline not initialized")).
Proof.
  intros Hinv Hfin. split.
  - intros Hq. destruct (finite_top_k_coerces args 8 Hfin) as (top_k & Hk).
    unfold execute_tool, dispatch, _retrieve_documents. simpl. rewrite Hk. simpl.
    fold (query_of args). apply String.eqb_neq in Hq. by rewrite Hq, Hinv.
  - intros Hd Hq. destruct (finite_top_k_coerces args 5 Hfin) as (top_k & Hk).
    unfold execute_tool, dispatch, _search_specific_document. simpl. rewrite Hk. simpl.
    apply String.eqb_neq in Hd, Hq. by rewrite Hd, Hq, Hinv.
Qed.

(** X13. A pipeline without the [relevance_checker] attribute is not
    probed for it: [retrieve_documents] with a retrieval that is not
    empty reads the attribute and returns the envelope of the
    [AttributeError], which names the class of the pipeline. *)
Theorem relevance_checker_missing_reported p args invoke top_k retrieved :
  relevance_checker p = None →
  int_or_default args 8 = Ok top_k → query_of args ≠ "" →
  hybrid_retriever p = Some invoke → invoke (query_of args) = Ok retrieved →
  retrieved ≠ [] →
  execute_tool p "retrieve_documents" args
  = Ok (error_envelope ("'" +:+ class_name p
                        +:+ "' object has no attribute 'relevance_checker'")).
Proof.
  intros Hflt Hk Hq Hinv Hdocs Hne. unfold execute_tool, dispatch. simpl.
  rewrite (retrieve_documents_run p args invoke top_k Hk Hq Hinv), Hdocs.
  destruct retrieved as [|doc docs]; [contradiction|].
  unfold get_relevance_checker. by rewrite Hflt.
Qed.

Lemma filter_res_raises document_name good bad rest :
  Forall (fun d => text_source d = true) good → text_source bad = false →
  filter_res (in_document document_name) (good ++ bad :: rest)
  = Raise (AttributeError
             ("'" +:+ type_name (dict_get (metadata bad) "source" (PStr ""))
              +:+ "' object has no attribute 'lower'")).
Proof.
  intros Hgood Hbad. induction Hgood as [|d good Hd _ IH]; simpl.
  - unfold in_document, text_source in *.
    by destruct (dict_get (metadata bad) "source" (PStr "")).
  - rewrite IH. unfold in_document, text_source in *.
    by destruct (dict_get (metadata d) "source" (PStr "")).
Qed.

(** X14. [search_specific_document] calls [lower] on the [source] of
    every retrieved document, matching or not: if some retrieved document
    has a [source] that is not text, the call fails with the
    [AttributeError] of the first such document and returns no
    document at all. *)
Theorem search_specific_document_source_not_text
    p args invoke top_k good bad rest :
  let document_name := py_str (dict_get args "document_name" (PStr "")) in
  let query := py_str (dict_get args "query" (PStr "")) in
  int_or_default args 5 = Ok top_k → document_name ≠ "" → query ≠ "" →
  hybrid_retriever p = Some invoke → invoke query = Ok (good ++ bad :: rest) →
  Forall (fun d => text_source d = true) good → text_source bad = false →
  execute_tool p "search_specific_document" args
  = Ok (error_envelope
          ("'" +:+ type_name (dict_get (metadata bad) "source" (PStr ""))
           +:+ "' object has no attribute 'lower'")).
Proof.
  intros document_name query Hk Hd Hq Hinv Hdocs Hgood Hbad.
  unfold execute_tool, dispatch. simpl.
  rewrite (search_specific_document_run p args invoke top_k Hk Hd Hq Hinv).
  fold document_name query. rewrite Hdocs. simpl.
  by rewrite (filter_res_raises document_name good bad rest Hgood Hbad).
Qed.

Lemma collect_app doc_info l1 l2 :
  collect doc_info (l1 ++ l2) = let* doc_info := collect doc_info l1 in collect doc_info l2.
Proof.
  revert doc_info. induction l1 as [|d l1 IH]; intros doc_info; simpl; [reflexivity|].
  destruct (add_document doc_info d); simpl; [apply IH|reflexivity].
Qed.

(** X15. [get_document_list] keys [doc_info] by the [source] itself: a
    document whose [source] is a list or a dictionary makes the call fail
    with the [TypeError] of the unhashable key, whatever was grouped
    before it. *)
Theorem get_document_list_unhashable_source p args good bad rest :
  documents p = Some (good ++ bad :: rest) →
  Forall (fun d => text_source d = true) good →
  hashable (source_of bad) = false →
  execute_tool p "get_document_list" args
  = Ok (error_envelope ("unhashable type: '" +:+ type_name (source_of bad) +:+ "'")).
Proof.
  intros Hdocs Hgood Hbad. unfold execute_tool, dispatch, _get_document_list. simpl.
  rewrite Hdocs.
  assert (collect [] (good ++ bad :: rest)
          = Raise (TypeError ("unhashable type: '" +:+ type_name (source_of bad) +:+ "'")))
    as Hraise.
  { rewrite collect_app.
    change (@nil (pyval * SourceInfo)) with (expected_doc_info []).
    rewrite (collect_expected [] good Hgood). simpl.
    unfold add_document. fold (source_of bad). by rewrite Hbad. }
  destruct (good ++ bad :: rest) as [|d l] eqn:Hl; [by destruct good|].
  by rewrite Hraise.
Qed.

(** X16. The dispatcher enforces what the catalogue declares required:
    for every tool of [TOOL_SCHEMAS] and every parameter it lists under
    [required], a call whose arguments lack that parameter (and the
    [question] alias, and whose [top_k] is not an infinite float) gets one
    failure envelope, the same for every pipeline. *)
Theorem required_parameters_enforced schema parameter args :
  schema ∈ TOOL_SCHEMAS → parameter ∈ required schema →
  dict_has args parameter = false → dict_has args "question" = false →
  finite_top_k args = true →
  ∃ message, ∀ p, execute_tool p (name schema) args = Ok (error_envelope message).
Proof.
  intros Hschema Hparam Hmiss Hquestion Hfin. unfold TOOL_SCHEMAS in Hschema.
  repeat (apply elem_of_cons in Hschema as [->|Hschema]);
    [| |by apply elem_of_nil in Hparam|by apply elem_of_nil in Hschema]; simpl in *.
  - apply list_elem_of_singleton in Hparam as ->.
    destruct (finite_top_k_coerces args 8 Hfin) as (top_k & Hk).
    exists "Query is required". intros p.
    apply (retrieve_documents_query_required p args top_k Hk).
    unfold query_of. by rewrite !dict_get_absent.
  - destruct (finite_top_k_coerces args 5 Hfin) as (top_k & Hk).
    exists "Both document_name and query are required". intros p.
    apply (search_specific_document_both_required p args top_k Hk).
    apply elem_of_cons in Hparam as [->|Hparam];
      [left|right; apply list_elem_of_singleton in Hparam as ->];
      by rewrite dict_get_absent.
Qed.

(** X17. The [question] alias stands in for a [query] key that is
    absent, not for one that is empty: a call whose [query] is present
    and empty after [str] is refused with ["Query is required"] whatever
    [question] holds and whatever the pipeline is. *)
Theorem empty_query_shadows_question p args :
  dict_has args "query" = true → py_str (dict_get args "query" PNone) = "" →
  finite_top_k args = true →
  execute_tool p "retrieve_documents" args = Ok (error_envelope "Query is required").
Proof.
  intros Hhas Hempty Hfin. destruct (finite_top_k_coerces args 8 Hfin) as (top_k & Hk).
  apply (retrieve_documents_query_required p args top_k Hk). unfold query_of.
  by rewrite (dict_get_default args "query" _ PNone).
Qed.
End Degraded.

Section Numbers.
Context {runtime : Runtime}.

(** X19. A [top_k] supplied as a finite float never fails and is
    truncated toward zero: the float [m * 2^e] with a non-negative
    exponent gives the integer of the same value, and with a negative
    exponent the integer [k] of the same sign with
    [|k| * 2^(-e) <= m < (|k| + 1) * 2^(-e)]. *)
Theorem top_k_finite_float args d (s : bool) (m : positive) (e : Z) :
  dict_get args "top_k" (PInt d) = PFloat (S754_finite s m e) →
  ∃ k, int_or_default args d = Ok k
    ∧ (if s then k ≤ 0 else 0 ≤ k)
    ∧ (0 ≤ e → Z.abs k = Z.pos m * 2 ^ e)
    ∧ (e < 0 → Z.abs k * 2 ^ (- e) ≤ Z.pos m < (Z.abs k + 1) * 2 ^ (- e)).
Proof.
  intros Hk. unfold int_or_default. rewrite Hk. simpl.
  eexists. split; [reflexivity|].
  destruct (Z.leb_spec 0 e) as [Hpos|Hneg].
  - assert (0 < 2 ^ e) by (apply Z.pow_pos_nonneg; lia).
    destruct s; repeat split; try lia; intros _; nia.
  - assert (0 < 2 ^ (- e)) as Hpow by (apply Z.pow_pos_nonneg; lia).
    pose proof (Z.div_pos (Z.pos m) (2 ^ (- e)) ltac:(lia) Hpow) as Hq.
    pose proof (Z.mul_div_le (Z.pos m) (2 ^ (- e)) Hpow) as Hle.
    pose proof (Z.mul_succ_div_gt (Z.pos m) (2 ^ (- e)) Hpow) as Hgt.
    destruct s; repeat split; try lia; intros _; rewrite ?Z.abs_opp, Z.abs_eq by lia;
      nia.
Qed.
End Numbers.

Section Entries.
Context {runtime : Runtime}.

(** The envelope of [get_document_list] on documents with text sources. *)
Lemma get_document_list_entries p args docs :
  documents p = Some docs → docs ≠ [] →
  Forall (fun d => text_source d = true) docs →
  let sources := first_seen (source_name <$> docs) in
  execute_tool p "get_document_list" args
  = Ok [ ("success", PBool true);
         ("message", PStr ("Found " +:+ pretty (length sources)
                           +:+ " documents in knowledge base"));
         ("documents", PList (map (fun s => catalog_entry (expected_info docs s)) sources));
         ("total_documents", PInt (Z.of_nat (length sources))) ].
Proof.
  intros Hd Hne Htext sources.
  unfold execute_tool, dispatch, _get_document_list. simpl. rewrite Hd.
  destruct docs as [|d docs]; [contradiction|].
  change (@nil (pyval * SourceInfo)) with (expected_doc_info []).
  rewrite (collect_expected [] (d :: docs) Htext). simpl app.
  unfold expected_doc_info. fold sources. simpl.
  rewrite !length_map, map_map. reflexivity.
Qed.

Lemma length_remove_dups (l : list string) : (length (remove_dups l) ≤ length l)%nat.
Proof.
  induction l as [|x l IH]; simpl; [lia|].
  destruct (decide_rel elem_of x l); simpl; lia.
Qed.

Lemma chunks_of_source s docs :
  s ∈ source_name <$> docs → chunks_of s docs ≠ [].
Proof.
  intros Hin. apply list_elem_of_fmap in Hin as (d & -> & Hd).
  assert (d ∈ chunks_of (source_name d) docs) as Hc.
  { apply list_elem_of_In, filter_In. split; [by apply list_elem_of_In|].
    apply String.eqb_refl. }
  intros Hnil. rewrite Hnil in Hc. by apply elem_of_nil in Hc.
Qed.

(** X20. On a collection whose sources are text, each entry of
    [get_document_list] counts its own source: [total_chunks] is the
    number of documents filed under the entry's [name], and
    [1 <= page_count <= total_chunks].  A document without a [page] counts
    as page ["?"]: when no document of a source has a [page], the
    [page_count] of its entry is 1. *)
Theorem catalogue_entry_counts p args docs :
  documents p = Some docs → docs ≠ [] →
  Forall (fun d => text_source d = true) docs →
  ∃ env entries,
    execute_tool p "get_document_list" args = Ok env
    ∧ dict_get env "documents" PNone = PList entries
    ∧ Forall2 (fun e s =>
                 field e "name" = PStr s
                 ∧ field e "total_chunks" = PInt (Z.of_nat (length (chunks_of s docs)))
                 ∧ ∃ pages, field e "page_count" = PInt pages
                     ∧ 1 ≤ pages ≤ Z.of_nat (length (chunks_of s docs))
                     ∧ (Forall (fun d => dict_has (metadata d) "page" = false)
                               (chunks_of s docs) → pages = 1))
              entries (first_seen (source_name <$> docs)).
Proof.
  intros Hd Hne Htext. eexists _, _.
  split; [apply (get_document_list_entries p args docs Hd Hne Htext)|].
  split; [reflexivity|].
  apply Forall2_fmap_l, Forall_Forall2_diag, List.Forall_forall. intros s Hs.
  apply list_elem_of_In, elem_of_first_seen, chunks_of_source in Hs.
  split; [reflexivity|]. split; [reflexivity|].
  eexists. split; [reflexivity|]. simpl. rewrite size_list_to_set_distinct.
  pose proof (length_remove_dups (page_text <$> chunks_of s docs)) as Hle.
  rewrite length_fmap in Hle.
  destruct (chunks_of s docs) as [|d chunks] eqn:Hchunks; [contradiction|].
  split.
  - split; [|lia].
    assert (page_text d ∈ remove_dups (page_text <$> d :: chunks)) as Hin
      by (apply elem_of_remove_dups, list_elem_of_here).
    destruct (remove_dups (page_text <$> d :: chunks));
      [by apply elem_of_nil in Hin|simpl; lia].
  - intros Hpages.
    assert (page_text <$> d :: chunks = replicate (length (d :: chunks)) "?") as ->.
    { clear -Hpages. induction Hpages as [|x l Hx _ IH]; [reflexivity|].
      rewrite fmap_cons, IH. unfold page_text. by rewrite dict_get_absent. }
    clear. simpl length. induction (length chunks) as [|n IH]; [reflexivity|].
    change (remove_dups (replicate (S (S n)) "?"))
      with (if decide_rel elem_of "?" (replicate (S n) "?")
            then remove_dups (replicate (S n) "?")
            else "?" :: remove_dups (replicate (S n) "?")).
    destruct (decide_rel elem_of "?" (replicate (S n) "?")) as [_|Hn]; [exact IH|].
    exfalso. apply Hn, list_elem_of_here.
Qed.

(** X21. On a collection whose sources are text, the [content_types] of
    an entry list, without repetition, exactly the stringified [type]
    values of the documents filed under its name, ["text"] standing for a
    missing [type]. *)
Theorem catalogue_entry_content_types p args docs :
  documents p = Some docs → docs ≠ [] →
  Forall (fun d => text_source d = true) docs →
  ∃ env entries,
    execute_tool p "get_document_list" args = Ok env
    ∧ dict_get env "documents" PNone = PList entries
    ∧ Forall2 (fun e s =>
                 ∃ types, content_types_of e = map PStr types
                   ∧ NoDup types
                   ∧ ∀ t, t ∈ types ↔ ∃ d, d ∈ docs ∧ source_of d = PStr s
                                           ∧ type_text d = t)
              entries (first_seen (source_name <$> docs)).
Proof.
  intros Hd Hne Htext. eexists _, _.
  split; [apply (get_document_list_entries p args docs Hd Hne Htext)|].
  split; [reflexivity|].
  apply Forall2_fmap_l, Forall_Forall2_diag, List.Forall_forall. intros s _.
  eexists. split; [reflexivity|]. split; [apply NoDup_elements|].
  intros t. simpl. rewrite elem_of_elements, elem_of_list_to_set, list_elem_of_fmap.
  split.
  - intros (d & -> & Hin). apply list_elem_of_In, filter_In in Hin as [Hin Hs].
    exists d. split; [by apply list_elem_of_In|]. split; [|reflexivity].
    apply String.eqb_eq in Hs as <-. apply text_source_name.
    rewrite List.Forall_forall in Htext. by apply Htext.
  - intros (d & Hin & Hs & <-). exists d. split; [reflexivity|].
    apply list_elem_of_In, filter_In. split; [by apply list_elem_of_In|].
    unfold source_name. rewrite Hs. apply String.eqb_refl.
Qed.

(** X22. A failure envelope of [execute_tool] always carries its
    [error] as text, so the formatter's ["Unknown error"] is never reached
    on what the dispatcher returns: the text is
    ["[Tool Error - <tool_name>]: "] followed by that message. *)
Theorem failure_text p tool_name args env :
  execute_tool p tool_name args = Ok env →
  dict_get env "success" PNone = PBool false →
  ∃ message, dict_get env "error" PNone = PStr message
    ∧ format_tool_result_for_prompt tool_name env
      = Ok ("[Tool Error - " +:+ tool_name +:+ "]: " +:+ message).
Proof.
  intros Hrun Hs.
  apply execute_tool_cases in Hrun as [Hrun|(e & _ & ->)]; [|by eexists].
  unfold dispatch in Hrun.
  destruct (String.eqb tool_name "retrieve_documents").
  { apply (retrieve_documents_paths p args) in Hrun
      as (top_k & _ & [-> | [-> | [-> | (invoke & flt & retrieved & filtered & Hrest)]]]);
      try discriminate; try (by eexists).
    destruct Hrest as (_ & _ & _ & _ & _ & ->). discriminate. }
  destruct (String.eqb tool_name "search_specific_document").
  { apply (search_specific_document_paths p args) in Hrun
      as (top_k & _ & [-> | [-> | [-> | (filtered & ->)]]]);
      try discriminate; by eexists. }
  destruct (String.eqb tool_name "get_document_list").
  { apply (get_document_list_paths p args) in Hrun as [-> | (doc_info & ->)];
      [by eexists|discriminate]. }
  injection Hrun as <-. by eexists.
Qed.
End Entries.

(** * Closed examples *)

#[local] Existing Instance plain_runtime.

(** C1 on a successful call, a failed one and an unknown tool. *)
Lemma execute_tool_envelope_shape_witness :
  (∃ env, execute_tool policy_pipeline "retrieve_documents" [("query", PStr "wetland rules")]
          = Ok env
          ∧ dict_get env "success" PNone = PBool true
          ∧ dict_has env "error" = false ∧ dict_has env "documents" = true)
  ∧ (∃ env, execute_tool broken_pipeline "get_document_list" [] = Ok env
            ∧ dict_get env "success" PNone = PBool false
            ∧ dict_has env "error" = true ∧ dict_has env "documents" = false).
Proof.
  split.
  - destruct (execute_tool_envelope_shape policy_pipeline "retrieve_documents"
                [("query", PStr "wetland rules")]) as (env & Hrun & _ & _ & Hdocs).
    exists env. vm_compute in Hrun. injection Hrun as <-. repeat split.
  - destruct (execute_tool_envelope_shape broken_pipeline "get_document_list" [])
      as (env & Hrun & _ & Hdocs & _).
    exists env. vm_compute in Hrun. injection Hrun as <-. repeat split.
Defined.

(** C2 where the retriever raises, and where the relevance filter does. *)
Lemma execute_tool_catches_witness :
  execute_tool broken_pipeline "retrieve_documents" [("query", PStr "wetland rules")]
  = Ok (error_envelope "index offline")
  ∧ execute_tool
      {| class_name := "RAGPipeline";
         hybrid_retriever := Some (fun _ => Ok policy_chunks);
         relevance_checker := relevance_checker broken_pipeline;
         documents := None |}
      "retrieve_documents" [("query", PStr "wetland rules")]
    = Ok (error_envelope "scorer offline").
Proof.
  split.
  - apply (proj1 (proj2 (execute_tool_catches broken_pipeline "retrieve_documents"
                           [("query", PStr "wetland rules")]))
             (Failure "ConnectionError" "index offline")).
    reflexivity.
  - eapply (proj2 (proj2 (proj2 (execute_tool_catches _ "retrieve_documents"
                                   [("query", PStr "wetland rules")])))
              (fun _ => Ok policy_chunks) _ 8 _ _ (Failure "RuntimeError" "scorer offline"));
      try reflexivity.
    vm_compute. discriminate.
Defined.

(** C8 on a name outside the catalogue and on one inside. *)
Lemma unknown_tool_iff_not_catalogued_witness :
  execute_tool policy_pipeline "delete_documents" []
  = Ok (error_envelope "Unknown tool: delete_documents")
  ∧ ∃ handler : RAGPipeline → dict → res dict,
      dispatch policy_pipeline "get_document_list" [] = handler policy_pipeline [].
Proof.
  split.
  - apply (proj1 (unknown_tool_iff_not_catalogued policy_pipeline "delete_documents" [])).
    unfold known_handlers. intros Hin. by repeat (apply elem_of_cons in Hin as [?|Hin]; [done|]);
      apply elem_of_nil in Hin.
  - destruct (proj2 (proj2 (unknown_tool_iff_not_catalogued
                              policy_pipeline "get_document_list" [])))
      as (handler & _ & Hrun & _).
    + rewrite (proj1 (proj2 (unknown_tool_iff_not_catalogued
                                policy_pipeline "get_document_list" []))).
      unfold known_handlers. set_solver.
    + exists handler. exact Hrun.
Defined.

(** C4 with [top_k] given as the float 2.0. *)
Lemma retrieve_documents_result_witness :
  execute_tool policy_pipeline "retrieve_documents"
    [("query", PStr "wetland rules"); ("top_k", PFloat (S754_finite false 1 1))]
  = Ok [ ("success", PBool true);
         ("message", PStr "Retrieved 2 relevant documents");
         ("documents",
          PList [ PDict [ ("content", PStr "Wetlands are protected.");
                          ("source", PStr "National Wetland Policy.pdf");
                          ("page", PInt 1); ("type", PStr "text") ];
                  PDict [ ("content", PStr "Filling is prohibited.");
                          ("source", PStr "national wetland policy.pdf");
                          ("page", PInt 2); ("type", PStr "text") ] ]);
         ("count", PInt 2) ].
Proof.
  refine (retrieve_documents_result policy_pipeline
            [("query", PStr "wetland rules"); ("top_k", PFloat (S754_finite false 1 1))]
            (fun _ => Ok policy_chunks) keep_all 2 policy_chunks
            (map (fun d => (d, PFloat (S754_finite false 1 0))) (take 2 policy_chunks))
            _ _ _ _ _ _ _ _);
    try reflexivity; vm_compute; discriminate.
Defined.

(** C4 as stated fails in two ways.  On a pipeline that exposes the
    retriever and has no relevance checker, a call with a query and a
    retrieval that are not empty returns a failure envelope.  And with
    [top_k] -1 the code passes all but the last retrieved document to the
    filter and returns three documents, where the first [top_k] are
    none. *)
Lemma retrieve_documents_as_stated :
  execute_tool (retrieval_pipeline policy_chunks None) "retrieve_documents"
    [("query", PStr "wetland rules")]
  = Ok (error_envelope "'RAGPipeline' object has no attribute 'relevance_checker'")
  ∧ int_or_default [("query", PStr "wetland rules"); ("top_k", PInt (-1))] 8 = Ok (-1)
  ∧ execute_tool policy_pipeline "retrieve_documents"
      [("query", PStr "wetland rules"); ("top_k", PInt (-1))]
    = Ok [ ("success", PBool true);
           ("message", PStr "Retrieved 3 relevant documents");
           ("documents", PList (map project (take 3 policy_chunks)));
           ("count", PInt 3) ]
  ∧ spec_retrieve_documents (-1) "wetland rules" (fun _ => Ok policy_chunks) keep_all = Ok []
  ∧ map project (take 3 policy_chunks) ≠ [].
Proof. repeat split; try reflexivity. vm_compute. discriminate. Qed.

(** C3 on the four policy chunks with [top_k] 1: two candidates, one
    returned. *)
Lemma search_specific_document_result_witness :
  execute_tool policy_pipeline "search_specific_document"
    [("document_name", PStr "Wetland Policy"); ("query", PStr "buffer zones"); ("top_k", PInt 1)]
  = Ok [ ("success", PBool true);
         ("message", PStr "Retrieved 1 chunks from 'Wetland Policy'");
         ("documents",
          PList [ PDict [ ("content", PStr "Wetlands are protected.");
                          ("source", PStr "National Wetland Policy.pdf");
                          ("page", PInt 1); ("type", PStr "text") ] ]);
         ("count", PInt 1);
         ("searched_document", PStr "Wetland Policy") ]
  ∧ Forall (fun r => ∃ s, field r "source" = PStr s
                          ∧ str_in (str_lower "Wetland Policy") (str_lower s) = true)
           [ project (chunk "National Wetland Policy.pdf" (PInt 1) "Wetlands are protected.") ].
Proof.
  pose proof (search_specific_document_result policy_pipeline
                [("document_name", PStr "Wetland Policy"); ("query", PStr "buffer zones");
                 ("top_k", PInt 1)]
                (fun _ => Ok policy_chunks) keep_all 1 policy_chunks
                (map (fun d => (d, PFloat (S754_finite false 1 0))) (take 2 policy_chunks)))
    as Hthm.
  cbv zeta in Hthm.
  destruct Hthm as (Hrun & Hsources); try reflexivity.
  - lia.
  - vm_compute. discriminate.
  - vm_compute. discriminate.
  - by repeat constructor.
  - vm_compute. discriminate.
  - split; [exact Hrun|]. apply Hsources. vm_compute.
    apply sublist_skip, sublist_skip, sublist_nil.
Defined.

(** C3 as stated fails in three ways.  On a pipeline that exposes the
    retriever and has no relevance checker, a call with a scoped set that
    is not empty returns a failure envelope; so does a call where one
    retrieved document, outside the scope, has a number for [source].
    And with [top_k] -1 the code keeps all but the last two scoped
    documents as candidates and returns all but the last one the filter
    keeps, one document, where the first [top_k] are none. *)
Lemma search_specific_document_as_stated :
  execute_tool (retrieval_pipeline policy_chunks None) "search_specific_document"
    [("document_name", PStr "Wetland Policy"); ("query", PStr "buffer zones")]
  = Ok (error_envelope "'RAGPipeline' object has no attribute 'relevance_checker'")
  ∧ execute_tool (retrieval_pipeline (numbered_chunk :: policy_chunks) (Some keep_all))
      "search_specific_document"
      [("document_name", PStr "Wetland Policy"); ("query", PStr "buffer zones")]
    = Ok (error_envelope "'int' object has no attribute 'lower'")
  ∧ int_or_default [("document_name", PStr "Wetland Policy"); ("query", PStr "buffer zones");
                    ("top_k", PInt (-1))] 5 = Ok (-1)
  ∧ execute_tool policy_pipeline "search_specific_document"
      [("document_name", PStr "Wetland Policy"); ("query", PStr "buffer zones");
       ("top_k", PInt (-1))]
    = Ok [ ("success", PBool true);
           ("message", PStr "Retrieved 1 chunks from 'Wetland Policy'");
           ("documents", PList (map project (take 1 policy_chunks)));
           ("count", PInt 1);
           ("searched_document", PStr "Wetland Policy") ]
  ∧ spec_search_specific_document (-1) "Wetland Policy" "buffer zones"
      (fun _ => Ok policy_chunks) keep_all = Ok []
  ∧ map project (take 1 policy_chunks) ≠ [].
Proof. repeat split; try reflexivity. vm_compute. discriminate. Qed.

(** C5 on a retriever that finds nothing, and on a name no retrieved
    source contains. *)
Lemma empty_result_is_success_witness :
  execute_tool empty_pipeline "retrieve_documents" [("question", PStr "peat depth")]
  = Ok [ ("success", PBool true);
         ("message", PStr "No relevant documents found");
         ("documents", PList []);
         ("count", PInt 0) ]
  ∧ ∃ env, execute_tool policy_pipeline "search_specific_document"
             [("document_name", PStr "Metro Colombo"); ("query", PStr "buffer zones")]
           = Ok env
      ∧ dict_get env "success" PNone = PBool true
      ∧ dict_has env "error" = false
      ∧ dict_get env "documents" PNone = PList []
      ∧ dict_get env "count" PNone = PInt 0
      ∧ dict_get env "searched_document" PNone = PStr "Metro Colombo".
Proof.
  split.
  - apply (proj1 (empty_result_is_success empty_pipeline [("question", PStr "peat depth")])
             (fun _ => Ok []) 8); try reflexivity.
    vm_compute. discriminate.
  - apply (proj2 (empty_result_is_success policy_pipeline
                    [("document_name", PStr "Metro Colombo"); ("query", PStr "buffer zones")])
             (fun _ => Ok policy_chunks) 5 policy_chunks); try reflexivity.
    + vm_compute. discriminate.
    + vm_compute. discriminate.
Defined.

(** C6 on the collection of the specification's example: two entries,
    [A.pdf] with 2 chunks on 2 pages and [B.pdf] with 1 chunk on 1 page. *)
Lemma get_document_list_catalog_witness :
  execute_tool broken_pipeline "get_document_list" []
  = Ok [ ("success", PBool false);
         ("error", PStr "No documents loaded in the knowledge base") ]
  ∧ ∃ entries,
      execute_tool
        {| class_name := "RAGPipeline"; hybrid_retriever := None;
           relevance_checker := None; documents := Some example_collection |}
        "get_document_list" []
      = Ok [ ("success", PBool true);
             ("message", PStr "Found 2 documents in knowledge base");
             ("documents", PList entries);
             ("total_documents", PInt 2) ]
      ∧ map (fun e => field e "name") entries = [PStr "A.pdf"; PStr "B.pdf"]
      ∧ total_chunks_sum entries = 3
      ∧ Forall2 (fun e n => field e "page_count" = PInt n) entries [2; 1].
Proof.
  split.
  - apply (proj1 (get_document_list_catalog broken_pipeline [])). left. reflexivity.
  - destruct (proj2 (get_document_list_catalog
                       {| class_name := "RAGPipeline"; hybrid_retriever := None;
                          relevance_checker := None; documents := Some example_collection |}
                       []) example_collection)
      as (entries & Hrun & _ & _ & Hnames & _ & Hsum & Hpages);
      [reflexivity|discriminate|repeat constructor|].
    exists entries. repeat split; [exact Hrun|exact Hnames|exact Hsum|].
    change (first_seen (source_name <$> example_collection)) with ["A.pdf"; "B.pdf"] in Hpages.
    inversion Hpages as [|e1 s1 l1 k1 H1 Hrest]; subst.
    inversion Hrest as [|e2 s2 l2 k2 H2 Hnil]; subst.
    inversion Hnil; subst.
    repeat constructor; [rewrite H1|rewrite H2]; reflexivity.
Defined.

(** The example of the specification, entry by entry. *)
Example get_document_list_example :
  _get_document_list
    {| class_name := "RAGPipeline"; hybrid_retriever := None;
       relevance_checker := None; documents := Some example_collection |} []
  = Ok [ ("success", PBool true);
         ("message", PStr "Found 2 documents in knowledge base");
         ("documents",
          PList [ PDict [ ("name", PStr "A.pdf"); ("total_chunks", PInt 2);
                          ("page_count", PInt 2); ("content_types", PList [PStr "text"]) ];
                  PDict [ ("name", PStr "B.pdf"); ("total_chunks", PInt 1);
                          ("page_count", PInt 1); ("content_types", PList [PStr "text"]) ] ]);
         ("total_documents", PInt 2) ].
Proof. vm_compute. reflexivity. Qed.

(** C9 on the envelope of an unknown tool, on one without an [error]
    field, and on an empty retrieval. *)
Lemma format_failure_and_empty_witness :
  format_tool_result_for_prompt "delete_documents"
    (error_envelope "Unknown tool: delete_documents")
  = Ok "[Tool Error - delete_documents]: Unknown tool: delete_documents"
  ∧ format_tool_result_for_prompt "retrieve_documents" [("success", PBool false)]
    = Ok "[Tool Error - retrieve_documents]: Unknown error"
  ∧ format_tool_result_for_prompt "search_specific_document"
      [ ("success", PBool true); ("message", PStr "No content found in 'x' for this query");
        ("documents", PList []); ("count", PInt 0); ("searched_document", PStr "x") ]
    = Ok "[search_specific_document]: No relevant documents found.".
Proof.
  split; [|split].
  - destruct (proj1 (format_failure_and_empty "delete_documents"
                       (error_envelope "Unknown tool: delete_documents")))
      as (out & -> & -> & _); reflexivity.
  - destruct (proj1 (format_failure_and_empty "retrieve_documents" [("success", PBool false)]))
      as (out & -> & -> & _); reflexivity.
  - destruct (proj2 (format_failure_and_empty "search_specific_document"
                       [ ("success", PBool true);
                         ("message", PStr "No content found in 'x' for this query");
                         ("documents", PList []); ("count", PInt 0);
                         ("searched_document", PStr "x") ]))
      as (out & -> & -> & _); auto; reflexivity.
Defined.

(** X1 on one projected chunk. *)
Lemma format_retrieval_listing_witness :
  format_tool_result_for_prompt "retrieve_documents"
    [ ("success", PBool true);
      ("documents", PList [project (chunk "A.pdf" (PInt 1) "a1")]) ]
  = Ok ("[retrieve_documents]: Retrieved 1 documents:" +:+ LF +:+ LF
        +:+ "--- Document 1 ---" +:+ LF
        +:+ "Source: A.pdf, Page: 1, Type: text" +:+ LF
        +:+ "Content: a1" +:+ LF +:+ LF).
Proof.
  apply (format_retrieval_listing "retrieve_documents"
           [ ("success", PBool true);
             ("documents", PList [project (chunk "A.pdf" (PInt 1) "a1")]) ]
           [project (chunk "A.pdf" (PInt 1) "a1")]);
    [by left|reflexivity|reflexivity|discriminate|by repeat constructor].
Defined.

(** X2 on one catalogue entry. *)
Lemma format_catalogue_listing_witness :
  format_tool_result_for_prompt "get_document_list"
    [ ("success", PBool true);
      ("documents", PList [ PDict [ ("name", PStr "A.pdf"); ("total_chunks", PInt 2);
                                    ("page_count", PInt 2) ] ]) ]
  = Ok ("[get_document_list]: Available documents:" +:+ LF +:+ LF
        +:+ "- A.pdf: 2 chunks, 2 pages" +:+ LF).
Proof.
  apply (format_catalogue_listing
           [ ("success", PBool true);
             ("documents", PList [ PDict [ ("name", PStr "A.pdf"); ("total_chunks", PInt 2);
                                           ("page_count", PInt 2) ] ]) ]
           [ PDict [ ("name", PStr "A.pdf"); ("total_chunks", PInt 2);
                     ("page_count", PInt 2) ] ]);
    [reflexivity|reflexivity|by repeat constructor].
Defined.

(** X3 on a second document without [page]. *)
Lemma format_missing_key_witness :
  format_tool_result_for_prompt "search_specific_document"
    [ ("success", PBool true);
      ("documents", PList [ project (chunk "A.pdf" (PInt 1) "a1");
                            PDict [("source", PStr "B.pdf"); ("content", PStr "b1")] ]) ]
  = Raise (KeyError "page").
Proof.
  apply (format_missing_key "search_specific_document" _
           [project (chunk "A.pdf" (PInt 1) "a1")]
           [("source", PStr "B.pdf"); ("content", PStr "b1")] "page" []);
    [by right|reflexivity|reflexivity|by repeat constructor|reflexivity].
Defined.

(** X5 on a retrieval of two documents. *)
Lemma count_is_number_of_documents_witness :
  ∃ env docs,
    execute_tool policy_pipeline "retrieve_documents"
      [("query", PStr "wetland rules"); ("top_k", PInt 2)] = Ok env
    ∧ dict_get env "documents" PNone = PList docs
    ∧ dict_get env "count" PNone = PInt (Z.of_nat (length docs)).
Proof.
  eexists. 
  destruct (count_is_number_of_documents policy_pipeline "retrieve_documents"
              [("query", PStr "wetland rules"); ("top_k", PInt 2)] _ eq_refl eq_refl)
    as (docs & Hdocs & Hcount & _).
  exists docs. split; [reflexivity|]. split; [exact Hdocs|]. apply Hcount. by left.
Defined.

(** X6 with [top_k] 1 on four scoped documents. *)
Lemma search_specific_document_count_bound_witness :
  ∃ env n,
    execute_tool policy_pipeline "search_specific_document"
      [("document_name", PStr "Wetland Policy"); ("query", PStr "buffer zones");
       ("top_k", PInt 1)] = Ok env
    ∧ dict_get env "count" PNone = PInt n ∧ 0 ≤ n ≤ 1.
Proof.
  eexists.
  destruct (search_specific_document_count_bound policy_pipeline
              [("document_name", PStr "Wetland Policy"); ("query", PStr "buffer zones");
               ("top_k", PInt 1)] _ 1 eq_refl eq_refl eq_refl ltac:(lia))
    as (n & Hcount & Hbound).
  exists n. split; [reflexivity|]. split; [exact Hcount|exact Hbound].
Defined.

(** X7 with [top_k] 2 and a filter that keeps its candidates. *)
Lemma retrieve_documents_count_bound_witness :
  ∃ env n,
    execute_tool policy_pipeline "retrieve_documents"
      [("query", PStr "wetland rules"); ("top_k", PInt 2)] = Ok env
    ∧ dict_get env "count" PNone = PInt n ∧ 0 ≤ n ≤ 2.
Proof.
  eexists.
  destruct (retrieve_documents_count_bound policy_pipeline
              [("query", PStr "wetland rules"); ("top_k", PInt 2)] _ 2
              eq_refl eq_refl eq_refl ltac:(lia))
    as (n & Hcount & Hbound).
  - intros filter_documents query candidates kept [= <-] [= <-].
    by rewrite length_map.
  - exists n. split; [reflexivity|]. split; [exact Hcount|exact Hbound].
Defined.

(** X8 on a successful search and on a refused one. *)
Lemma searched_document_echo_witness :
  (∃ env, execute_tool policy_pipeline "search_specific_document"
            [("document_name", PStr "Metro Colombo"); ("query", PStr "buffer zones")]
          = Ok env
          ∧ dict_get env "searched_document" PNone = PStr "Metro Colombo")
  ∧ (∃ env, execute_tool policy_pipeline "search_specific_document"
              [("document_name", PStr "Metro Colombo")] = Ok env
            ∧ dict_has env "searched_document" = false).
Proof.
  split; eexists.
  - destruct (searched_document_echo policy_pipeline
                [("document_name", PStr "Metro Colombo"); ("query", PStr "buffer zones")]
                _ eq_refl) as [[_ Hecho]|[Hs _]]; [|discriminate Hs].
    split; [reflexivity|exact Hecho].
  - destruct (searched_document_echo policy_pipeline
                [("document_name", PStr "Metro Colombo")] _ eq_refl)
      as [[Hs _]|[_ Hecho]]; [discriminate Hs|].
    split; [reflexivity|exact Hecho].
Defined.

(** X9 where the filter drops everything that was retrieved. *)
Lemma empty_results_format_alike_witness :
  ∃ env,
    execute_tool (retrieval_pipeline policy_chunks (Some drop_all)) "retrieve_documents"
      [("query", PStr "wetland rules")] = Ok env
    ∧ dict_get env "message" PNone = PStr "Retrieved 0 relevant documents"
    ∧ format_tool_result_for_prompt "retrieve_documents" env
      = Ok "[retrieve_documents]: No relevant documents found.".
Proof.
  eexists. split; [reflexivity|]. split; [reflexivity|].
  apply (empty_results_format_alike (retrieval_pipeline policy_chunks (Some drop_all))
           "retrieve_documents" [("query", PStr "wetland rules")]);
    [by left|reflexivity|reflexivity|reflexivity].
Defined.

(** X10 on a retrieval of four documents. *)
Lemma format_under_wrong_tool_name_witness :
  ∃ env,
    execute_tool policy_pipeline "retrieve_documents" [("query", PStr "wetland rules")]
    = Ok env
    ∧ format_tool_result_for_prompt "get_document_list" env = Raise (KeyError "name").
Proof.
  eexists. split; [reflexivity|].
  apply (format_under_wrong_tool_name policy_pipeline [("query", PStr "wetland rules")] _ 4);
    [reflexivity|reflexivity|reflexivity|lia].
Defined.

(** X12 on a pipeline that holds documents only. *)
Lemma retriever_missing_reported_witness :
  execute_tool (collection_pipeline policy_chunks) "retrieve_documents"
    [("query", PStr "wetland rules")]
  = Ok (error_envelope "RAG pipeline not initialized")
  ∧ execute_tool (collection_pipeline policy_chunks) "search_specific_document"
      [("document_name", PStr "Wetland Policy"); ("query", PStr "buffer zones")]
    = Ok (error_envelope "RAG pipeline not initialized").
Proof.
  split.
  - apply (proj1 (retriever_missing_reported (collection_pipeline policy_chunks)
                    [("query", PStr "wetland rules")] eq_refl eq_refl)).
    vm_compute. discriminate.
  - apply (proj2 (retriever_missing_reported (collection_pipeline policy_chunks)
                    [("document_name", PStr "Wetland Policy");
                     ("query", PStr "buffer zones")] eq_refl eq_refl));
      vm_compute; discriminate.
Defined.

(** X13 on a pipeline with a retriever and no relevance checker. *)
Lemma relevance_checker_missing_reported_witness :
  execute_tool (retrieval_pipeline policy_chunks None) "retrieve_documents"
    [("query", PStr "wetland rules")]
  = Ok (error_envelope "'RAGPipeline' object has no attribute 'relevance_checker'").
Proof.
  apply (relevance_checker_missing_reported (retrieval_pipeline policy_chunks None)
           [("query", PStr "wetland rules")] (fun _ => Ok policy_chunks) 8 policy_chunks);
    try reflexivity; vm_compute; discriminate.
Defined.

(** X14 where the second retrieved document has a number for [source]. *)
Lemma search_specific_document_source_not_text_witness :
  execute_tool
    (retrieval_pipeline (chunk "A.pdf" (PInt 1) "a1" :: numbered_chunk :: policy_chunks)
       (Some keep_all))
    "search_specific_document"
    [("document_name", PStr "Wetland Policy"); ("query", PStr "buffer zones")]
  = Ok (error_envelope "'int' object has no attribute 'lower'").
Proof.
  apply (search_specific_document_source_not_text
           (retrieval_pipeline (chunk "A.pdf" (PInt 1) "a1" :: numbered_chunk :: policy_chunks)
              (Some keep_all))
           [("document_name", PStr "Wetland Policy"); ("query", PStr "buffer zones")]
           (fun _ => Ok (chunk "A.pdf" (PInt 1) "a1" :: numbered_chunk :: policy_chunks))
           5 [chunk "A.pdf" (PInt 1) "a1"] numbered_chunk policy_chunks);
    try reflexivity; try (vm_compute; discriminate). by repeat constructor.
Defined.

(** X15 where the second document has a list for [source]. *)
Lemma get_document_list_unhashable_source_witness :
  execute_tool (collection_pipeline [chunk "A.pdf" (PInt 1) "a1"; listed_chunk])
    "get_document_list" []
  = Ok (error_envelope "unhashable type: 'list'").
Proof.
  apply (get_document_list_unhashable_source
           (collection_pipeline [chunk "A.pdf" (PInt 1) "a1"; listed_chunk]) []
           [chunk "A.pdf" (PInt 1) "a1"] listed_chunk []);
    [reflexivity|by repeat constructor|reflexivity].
Defined.

(** X16 on [search_specific_document] called without its [query]. *)
Lemma required_parameters_enforced_witness :
  ∃ message, ∀ p,
    execute_tool p "search_specific_document" [("document_name", PStr "Wetland Policy")]
    = Ok (error_envelope message).
Proof.
  assert (∃ schema, schema ∈ TOOL_SCHEMAS ∧ name schema = "search_specific_document"
                    ∧ "query" ∈ required schema) as (schema & Hin & Hname & Hreq).
  { eexists. split; [apply list_elem_of_further, list_elem_of_here|].
    split; [reflexivity|]. apply list_elem_of_further, list_elem_of_here. }
  rewrite <- Hname.
  apply (required_parameters_enforced schema "query"
           [("document_name", PStr "Wetland Policy")] Hin Hreq);
    reflexivity.
Defined.

(** X17 with an empty [query] beside a [question]. *)
Lemma empty_query_shadows_question_witness :
  execute_tool policy_pipeline "retrieve_documents"
    [("query", PStr ""); ("question", PStr "peat depth")]
  = Ok (error_envelope "Query is required").
Proof.
  apply (empty_query_shadows_question policy_pipeline
           [("query", PStr ""); ("question", PStr "peat depth")]); reflexivity.
Defined.

(** X19 on the float 2.5, that is [5 * 2^(-1)]. *)
Lemma top_k_finite_float_witness :
  ∃ k, int_or_default [("top_k", PFloat (S754_finite false 5 (-1)))] 8 = Ok k
    ∧ 0 ≤ k ∧ Z.abs k * 2 ≤ 5 < (Z.abs k + 1) * 2.
Proof.
  destruct (top_k_finite_float [("top_k", PFloat (S754_finite false 5 (-1)))] 8
              false 5 (-1) eq_refl) as (k & Hk & Hsign & _ & Hneg).
  exists k. split; [exact Hk|]. split; [exact Hsign|]. apply Hneg. lia.
Defined.

(** X20 on the collection of the specification's example. *)
Lemma catalogue_entry_counts_witness :
  ∃ env entries,
    execute_tool (collection_pipeline example_collection) "get_document_list" [] = Ok env
    ∧ dict_get env "documents" PNone = PList entries
    ∧ Forall2 (fun e s =>
                 field e "name" = PStr s
                 ∧ field e "total_chunks"
                   = PInt (Z.of_nat (length (chunks_of s example_collection)))
                 ∧ ∃ pages, field e "page_count" = PInt pages
                     ∧ 1 ≤ pages ≤ Z.of_nat (length (chunks_of s example_collection))
                     ∧ (Forall (fun d => dict_has (metadata d) "page" = false)
                               (chunks_of s example_collection) → pages = 1))
              entries (first_seen (source_name <$> example_collection)).
Proof.
  apply (catalogue_entry_counts (collection_pipeline example_collection) []
           example_collection);
    [reflexivity|discriminate|by repeat constructor].
Defined.

(** X21 on the collection of the specification's example. *)
Lemma catalogue_entry_content_types_witness :
  ∃ env entries,
    execute_tool (collection_pipeline example_collection) "get_document_list" [] = Ok env
    ∧ dict_get env "documents" PNone = PList entries
    ∧ Forall2 (fun e s =>
                 ∃ types, content_types_of e = map PStr types
                   ∧ NoDup types
                   ∧ ∀ t, t ∈ types ↔ ∃ d, d ∈ example_collection
                                           ∧ source_of d = PStr s ∧ type_text d = t)
              entries (first_seen (source_name <$> example_collection)).
Proof.
  apply (catalogue_entry_content_types (collection_pipeline example_collection) []
           example_collection);
    [reflexivity|discriminate|by repeat constructor].
Defined.

(** X22 on the envelope of an exception raised by the retriever. *)
Lemma failure_text_witness :
  ∃ env,
    execute_tool broken_pipeline "retrieve_documents" [("query", PStr "wetland rules")]
    = Ok env
    ∧ format_tool_result_for_prompt "retrieve_documents" env
      = Ok "[Tool Error - retrieve_documents]: index offline".
Proof.
  eexists. split; [reflexivity|].
  destruct (failure_text broken_pipeline "retrieve_documents"
              [("query", PStr "wetland rules")] _ eq_refl eq_refl)
    as (message & Herror & Htext).
  injection Herror as <-. exact Htext.
Defined.
